(** * Chat-with-MySQL assistant (app.py): schema inspection, translation,
      execution and the per-question handler.

    The script is embedded shallowly.  Python [str] values are sequences of
    Unicode code points; the database connector, the chat model and pandas
    are external collaborators, taken as an environment record whose
    operations act on an abstract outside world and may raise.  Python
    exceptions keep the state reached so far, so the script runs in a
    state-and-exception monad written out below. *)

From Stdlib Require Import List NArith Ascii String Bool Arith Lia DecimalString.
Import ListNotations.

Set Implicit Arguments.

(** ** Python strings *)

Module PyStr.

(** A character is a Unicode code point. *)
Definition char := N.
Definition str := list char.

(** An ASCII literal of the source as a [str]. *)
Definition lit (s : string) : str := map N_of_ascii (list_ascii_of_string s).

(** The newline of an escape [\n] or of a line break inside a
    triple-quoted literal. *)
Definition nl : str := [10%N].

(** [str.isspace] on one character (CPython's [_PyUnicode_IsWhitespace]). *)
Definition isspace (c : char) : bool :=
  ((9 <=? c) && (c <=? 13) || (28 <=? c) && (c <=? 32)
   || (c =? 133) || (c =? 160) || (c =? 5760)
   || (8192 <=? c) && (c <=? 8202)
   || (c =? 8232) || (c =? 8233) || (c =? 8239) || (c =? 8287)
   || (c =? 12288))%N.

(** Membership of a character in the argument of [strip(chars)]. *)
Definition among (chars : str) (c : char) : bool := existsb (N.eqb c) chars.

(** The left scan of [strip]: skip characters while they match. *)
Fixpoint lstrip_by (p : char -> bool) (s : str) : str :=
  match s with
  | [] => []
  | c :: s' => if p c then lstrip_by p s' else s
  end.

(** The right scan, from the last character backwards. *)
Definition rstrip_by (p : char -> bool) (s : str) : str :=
  rev (lstrip_by p (rev s)).

Definition strip_by (p : char -> bool) (s : str) : str :=
  rstrip_by p (lstrip_by p s).

(** [s.strip()] *)
Definition strip (s : str) : str := strip_by isspace s.

(** [s.strip(chars)] *)
Definition strip_chars (chars : str) (s : str) : str := strip_by (among chars) s.

(** [sep.join(items)] on a list of strings. *)
Fixpoint join (sep : str) (items : list str) : str :=
  match items with
  | [] => []
  | [x] => x
  | x :: rest => x ++ sep ++ join sep rest
  end.

(** The first character satisfies [p]. *)
Definition leading (p : char -> bool) (s : str) : bool :=
  match s with
  | [] => false
  | c :: _ => p c
  end.

(** The last character satisfies [p]. *)
Definition trailing (p : char -> bool) (s : str) : bool := leading p (rev s).

Fixpoint eqb (a b : str) : bool :=
  match a, b with
  | [], [] => true
  | x :: a', y :: b' => N.eqb x y && eqb a' b'
  | _, _ => false
  end.

(** [s.startswith(pre)] *)
Fixpoint startswith (pre s : str) : bool :=
  match pre, s with
  | [], _ => true
  | x :: pre', y :: s' => N.eqb x y && startswith pre' s'
  | _ :: _, [] => false
  end.

(** [s.endswith(suf)] *)
Definition endswith (suf s : str) : bool := startswith (rev suf) (rev s).

(** [sub in s] *)
Fixpoint contains (sub s : str) : bool :=
  startswith sub s ||
  match s with
  | [] => false
  | _ :: s' => contains sub s'
  end.

(** [str(n)] for a non-negative index. *)
Definition of_nat (n : nat) : str := lit (NilZero.string_of_uint (Nat.to_uint n)).

End PyStr.

Import PyStr.

(** ** Python values, exceptions and outcomes *)

(** A scalar that is not a [str] (an int, a Decimal, a date, [None], ...),
    as far as the script can observe it: its type name and its [str()]. *)
Record obj := { obj_type : str; obj_str : str }.

(** One field of a fetched row or of a result descriptor entry. *)
Inductive cell :=
| CStr (s : str)
| CObj (o : obj).

(** A fetched row, or one entry of [cursor.description]: a tuple with at
    least one field (a result set has at least one column, a descriptor
    entry has seven fields, the name first). *)
Record tuple := { item0 : cell; items : list cell }.

(** An instance of a subclass of [Exception], with its [str(e)]. *)
Inductive exn := Exception (text : str).

Definition str_of_exn (e : exn) : str := let 'Exception text := e in text.

Inductive outcome (A : Type) :=
| Return (a : A)
| Raise (e : exn).
Arguments Return {A} a.
Arguments Raise {A} e.

(** A replacement field [{x}] of an f-string. *)
Definition format (x : cell) : str :=
  match x with
  | CStr s => s
  | CObj o => obj_str o
  end.

(** The items of [sep.join(items)] from position [i] on: the first item
    that is not a [str] raises [TypeError]. *)
Fixpoint str_items (i : nat) (l : list cell) : outcome (list str) :=
  match l with
  | [] => Return []
  | CStr s :: rest =>
      match str_items (S i) rest with
      | Return ss => Return (s :: ss)
      | Raise e => Raise e
      end
  | CObj o :: _ =>
      Raise (Exception (lit "sequence item " ++ of_nat i ++
                        lit ": expected str instance, " ++ obj_type o ++ lit " found"))
  end.

(** [sep.join(items)] on fetched fields. *)
Definition join_cells (sep : str) (l : list cell) : outcome str :=
  match str_items 0 l with
  | Return ss => Return (join sep ss)
  | Raise e => Raise e
  end.

(** The first component of the pair [execute_query] returns: a [str] or
    the list that [fetchall] produced. *)
Inductive pyval :=
| PyStr (s : str)
| PyList (rows : list tuple).

(** [isinstance(v, str)] *)
Definition isinstance_str (v : pyval) : bool :=
  match v with
  | PyStr _ => true
  | PyList _ => false
  end.

(** Truth value of [cursor.description]: [None] and the empty list are false. *)
Definition truthy {A : Type} (d : option (list A)) : bool :=
  match d with
  | Some (_ :: _) => true
  | _ => false
  end.

(** ** Transcript and display *)

Inductive message :=
| AIMessage (content : str)
| HumanMessage (content : str).

Definition content (m : message) : str :=
  match m with
  | AIMessage c => c
  | HumanMessage c => c
  end.

(** What the script draws inside [st.chat_message(role)]. *)
Inductive widget (frame : Type) :=
| st_markdown (role : str) (body : str)
| st_error (role : str) (body : str)
| st_dataframe (role : str) (df : frame).
Arguments st_markdown {frame} role body.
Arguments st_error {frame} role body.
Arguments st_dataframe {frame} role df.

Definition is_dataframe {frame : Type} (w : widget frame) : bool :=
  match w with
  | st_dataframe _ _ => true
  | _ => false
  end.

(** ** The collaborators *)

(** Everything outside the script: the MySQL connector on the long-lived
    connection [st.session_state.db], the chat model [llm], [pd.DataFrame]
    and [st.dataframe].  [world] is the state of the server, the
    connection, its cursors and the completion service; a call returns or
    raises and leaves a new world either way.  [streamlit_dataframe] is
    [st.dataframe(df)] up to the drawing: Streamlit serialises the frame
    first and raises when it cannot, for instance on duplicate column
    names. *)
Record Env := {
  world : Type;
  cursor : Type;
  frame : Type;
  db_cursor : world -> outcome cursor * world;
  cursor_execute : cursor -> str -> world -> outcome unit * world;
  cursor_fetchall : cursor -> world -> outcome (list tuple) * world;
  cursor_description : cursor -> world -> option (list tuple);
  cursor_close : cursor -> world -> outcome unit * world;
  llm : list message -> world -> outcome str * world;
  pd_DataFrame : list tuple -> list cell -> outcome frame;
  streamlit_dataframe : frame -> outcome unit
}.

(** The session: [st.session_state.chat_history], what has been drawn, and
    the outside world. *)
Record state (E : Env) := {
  chat_history : list message;
  screen : list (widget (frame E));
  outside : world E
}.

(** ** The script monad: state that survives an exception *)

Definition M (E : Env) (A : Type) : Type := state E -> outcome A * state E.

Definition ret {E : Env} {A : Type} (a : A) : M E A := fun s => (Return a, s).

Definition raise {E : Env} {A : Type} (e : exn) : M E A := fun s => (Raise e, s).

Definition bind {E : Env} {A B : Type} (m : M E A) (k : A -> M E B) : M E B :=
  fun s =>
    match m s with
    | (Return a, s') => k a s'
    | (Raise e, s') => (Raise e, s')
    end.

(** [try: body  except Exception as e: handler(e)] *)
Definition try_except {E : Env} {A : Type} (body : M E A) (handler : exn -> M E A) : M E A :=
  fun s =>
    match body s with
    | (Return a, s') => (Return a, s')
    | (Raise e, s') => handler e s'
    end.

(** A pure computation that may raise. *)
Definition lift {E : Env} {A : Type} (o : outcome A) : M E A := fun s => (o, s).

(** The session after the outside world has moved to [w]. *)
Definition set_outside {E : Env} (s : state E) (w : world E) : state E :=
  {| chat_history := chat_history s; screen := screen s; outside := w |}.

(** A call to a collaborator. *)
Definition call {E : Env} {A : Type} (op : world E -> outcome A * world E) : M E A :=
  fun s => let (o, w) := op (outside s) in (o, set_outside s w).

(** Reading an attribute of a collaborator. *)
Definition read {E : Env} {A : Type} (attr : world E -> A) : M E A :=
  fun s => (Return (attr (outside s)), s).

(** [st.session_state.chat_history.append(msg)] *)
Definition append_history {E : Env} (msg : message) : M E unit :=
  fun s => (Return tt, {| chat_history := chat_history s ++ [msg];
                          screen := screen s; outside := outside s |}).

(** Drawing one widget. *)
Definition draw {E : Env} (w : widget (frame E)) : M E unit :=
  fun s => (Return tt, {| chat_history := chat_history s;
                          screen := screen s ++ [w]; outside := outside s |}).

Declare Scope script_scope.
Delimit Scope script_scope with script.
Notation "x <- c ;; k" := (bind c (fun x => k))
  (at level 61, c at next level, right associativity) : script_scope.
Notation "' pat <- c ;; k" := (bind c (fun x => match x with pat => k end))
  (at level 61, pat pattern, c at next level, right associativity) : script_scope.
Notation "c ;;; k" := (bind c (fun _ => k))
  (at level 61, right associativity) : script_scope.
Open Scope script_scope.

(** ** The helper functions and the handler of app.py *)

Section Script.

Variable E : Env.

(** The body of the loop [for table in tables:] of [get_schema_info], on
    the tables still to visit, with the list [schema_info] built so far. *)
Fixpoint describe_tables (cur : cursor E) (tables : list tuple) (schema_info : list str)
  : M E (list str) :=
  match tables with
  | [] => ret schema_info
  | table :: rest =>
      let table_name := item0 table in
      call (cursor_execute E cur (lit "DESCRIBE " ++ format table_name)) ;;;
      fetched <- call (cursor_fetchall E cur) ;;
      let columns := map item0 fetched in
      joined <- lift (join_cells (lit ", ") columns) ;;
      describe_tables cur rest
        (schema_info ++ [format table_name ++ lit " (" ++ joined ++ lit ")"])
  end.

(** The [try] block of [get_schema_info]. *)
Definition get_schema_info_try : M E str :=
  cur <- call (db_cursor E) ;;
  call (cursor_execute E cur (lit "SHOW TABLES")) ;;;
  tables <- call (cursor_fetchall E cur) ;;
  schema_info <- describe_tables cur tables [] ;;
  call (cursor_close E cur) ;;;
  ret (lit "Tables: " ++ join (lit ", ") schema_info).

Definition get_schema_info : M E str :=
  try_except get_schema_info_try (fun e => ret (str_of_exn e)).

(** [template_text] of [generate_sql] with its two fields filled in. *)
Definition prompt_text (schema_info user_query : str) : str :=
  nl ++
  lit "    You are an expert in MariaDB SQL. Convert the following natural language" ++ nl ++
  lit "    question into a valid SQL query. The database schema is:" ++ nl ++
  lit "    " ++ schema_info ++ nl ++
  nl ++
  lit "    Question: " ++ user_query ++ nl ++
  nl ++
  lit "    Return ONLY the SQL query, with no extra text or explanation." ++ nl ++
  lit "    ".

(** [prompt.format_messages(...)]: a template made from one string gives
    one human message. *)
Definition format_messages (schema_info user_query : str) : list message :=
  [HumanMessage (prompt_text schema_info user_query)].

Definition generate_sql (schema_info query : str) : M E str :=
  let messages := format_messages schema_info query in
  response_content <- call (llm E messages) ;;
  let sql_query := strip_chars (lit "`") (strip response_content) in
  ret sql_query.

(** The [try] block of [execute_query]. *)
Definition execute_query_try (query : str) : M E (pyval * list cell) :=
  cur <- call (db_cursor E) ;;
  call (cursor_execute E cur query) ;;;
  results <- call (cursor_fetchall E cur) ;;
  description <- read (cursor_description E cur) ;;
  let columns :=
    if truthy description
    then match description with Some d => map item0 d | None => [] end
    else [] in
  call (cursor_close E cur) ;;;
  ret (PyList results, columns).

Definition execute_query (query : str) : M E (pyval * list cell) :=
  try_except (execute_query_try query) (fun e => ret (PyStr (str_of_exn e), [])).

(** The assistant messages of step 5. *)
Definition error_text (sql_query result : str) : str :=
  lit "**Generated SQL**: `" ++ sql_query ++ lit "`" ++ nl ++ nl ++
  lit "**Error**: " ++ result.

Definition results_text (sql_query : str) : str :=
  lit "**Generated SQL**: `" ++ sql_query ++ lit "`" ++ nl ++ nl ++
  lit "**Results**:".

Definition no_results_text (sql_query : str) : str :=
  lit "**Generated SQL**: `" ++ sql_query ++ lit "`" ++ nl ++ nl ++
  lit "No results found.".

(** Step 5 of the handler: show the answer. *)
Definition show_answer (sql_query : str) (result : pyval) (columns : list cell) : M E unit :=
  match result with
  | PyStr result =>
      let error_message := error_text sql_query result in
      append_history (AIMessage error_message) ;;;
      draw (st_error (lit "assistant") error_message)
  | PyList result =>
      if 0 <? List.length result
      then
        df <- lift (pd_DataFrame E result columns) ;;
        let success_message := results_text sql_query in
        append_history (AIMessage success_message) ;;;
        draw (st_markdown (lit "assistant") success_message) ;;;
        lift (streamlit_dataframe E df) ;;;
        draw (st_dataframe (lit "assistant") df)
      else
        let success_message := no_results_text sql_query in
        append_history (AIMessage success_message) ;;;
        draw (st_markdown (lit "assistant") success_message)
  end.

(** Steps 2 to 5, once the user's message is in the transcript. *)
Definition answer (user_query : str) : M E unit :=
  schema_info <- get_schema_info ;;
  sql_query <- generate_sql schema_info user_query ;;
  '(result, columns) <- execute_query sql_query ;;
  show_answer sql_query result columns.

(** The block [if user_query:] on a submitted question. *)
Definition on_user_query (user_query : str) : M E unit :=
  match user_query with
  | [] => ret tt
  | _ :: _ =>
      append_history (HumanMessage user_query) ;;;
      draw (st_markdown (lit "user") user_query) ;;;
      answer user_query
  end.

End Script.

(** [st.session_state.chat_history] at the start of a session. *)
Definition initial_chat_history : list message :=
  [AIMessage (lit "Hello! I'm an Assistflow.ai SQL assistant. Ask me anything about your database.")].

(** ** What a database reports, as the specification words it *)

(** A catalog: the tables in reported order, each with its columns in
    reported order. *)
Definition catalog := list (str * list str).

(** The schema description ["Tables: t1 (c1, c2, ...), t2 (c1, ...), ..."]. *)
Definition schema_text (cat : catalog) : str :=
  lit "Tables: " ++
  join (lit ", ") (map (fun t => fst t ++ lit " (" ++ join (lit ", ") (snd t) ++ lit ")") cat).

Section Reports.

Variable E : Env.

(** From world [w] on, the connector answers [DESCRIBE t] for each table of
    the catalog in turn, and the rows fetched name the table's columns. *)
Inductive columns_reported (cur : cursor E) : catalog -> world E -> world E -> Prop :=
| columns_reported_nil : forall w, columns_reported cur [] w w
| columns_reported_cons : forall t cols rest fetched w w1 w2 w3,
    cursor_execute E cur (lit "DESCRIBE " ++ t) w = (Return tt, w1) ->
    cursor_fetchall E cur w1 = (Return fetched, w2) ->
    map item0 fetched = map CStr cols ->
    columns_reported cur rest w2 w3 ->
    columns_reported cur ((t, cols) :: rest) w w3.

(** Every metadata call made from world [w] succeeds, the database reports
    the catalog [cat], and the calls leave world [w']. *)
Definition catalog_reported (cat : catalog) (w w' : world E) : Prop :=
  exists cur tables w1 w2 w3 w4,
    db_cursor E w = (Return cur, w1) /\
    cursor_execute E cur (lit "SHOW TABLES") w1 = (Return tt, w2) /\
    cursor_fetchall E cur w2 = (Return tables, w3) /\
    map item0 tables = map (fun t => CStr (fst t)) cat /\
    columns_reported cur cat w3 w4 /\
    cursor_close E cur w4 = (Return tt, w').

(** The loop of [get_schema_info] gets through all of [tables] from world
    [w]: every [DESCRIBE] and every fetch succeeds, and the fetched names
    can be joined. *)
Inductive tables_described (cur : cursor E) : list tuple -> world E -> world E -> Prop :=
| tables_described_nil : forall w, tables_described cur [] w w
| tables_described_cons : forall table rest fetched joined w w1 w2 w3,
    cursor_execute E cur (lit "DESCRIBE " ++ format (item0 table)) w = (Return tt, w1) ->
    cursor_fetchall E cur w1 = (Return fetched, w2) ->
    join_cells (lit ", ") (map item0 fetched) = Return joined ->
    tables_described cur rest w2 w3 ->
    tables_described cur (table :: rest) w w3.

(** Inside the loop a metadata call fails with [e] and leaves world [w']:
    the [DESCRIBE] of one of the tables, or the fetch after it, the loop
    having got through the tables before that one. *)
Inductive describe_call_fails (cur : cursor E)
  : list tuple -> world E -> exn -> world E -> Prop :=
| describe_fails_execute : forall table rest w e w',
    cursor_execute E cur (lit "DESCRIBE " ++ format (item0 table)) w = (Raise e, w') ->
    describe_call_fails cur (table :: rest) w e w'
| describe_fails_fetchall : forall table rest w w1 e w',
    cursor_execute E cur (lit "DESCRIBE " ++ format (item0 table)) w = (Return tt, w1) ->
    cursor_fetchall E cur w1 = (Raise e, w') ->
    describe_call_fails cur (table :: rest) w e w'
| describe_fails_later : forall table rest fetched joined w w1 w2 e w',
    cursor_execute E cur (lit "DESCRIBE " ++ format (item0 table)) w = (Return tt, w1) ->
    cursor_fetchall E cur w1 = (Return fetched, w2) ->
    join_cells (lit ", ") (map item0 fetched) = Return joined ->
    describe_call_fails cur rest w2 e w' ->
    describe_call_fails cur (table :: rest) w e w'.

(** Some metadata call that [get_schema_info] makes from world [w] fails
    with [e] and leaves world [w'], the calls before it having succeeded:
    opening the cursor, [SHOW TABLES], the fetch of the tables, a call
    inside the loop, or closing the cursor. *)
Inductive metadata_call_fails (w : world E) (e : exn) (w' : world E) : Prop :=
| cursor_fails :
    db_cursor E w = (Raise e, w') ->
    metadata_call_fails w e w'
| show_tables_fails : forall cur w1,
    db_cursor E w = (Return cur, w1) ->
    cursor_execute E cur (lit "SHOW TABLES") w1 = (Raise e, w') ->
    metadata_call_fails w e w'
| fetch_tables_fails : forall cur w1 w2,
    db_cursor E w = (Return cur, w1) ->
    cursor_execute E cur (lit "SHOW TABLES") w1 = (Return tt, w2) ->
    cursor_fetchall E cur w2 = (Raise e, w') ->
    metadata_call_fails w e w'
| describe_fails : forall cur tables w1 w2 w3,
    db_cursor E w = (Return cur, w1) ->
    cursor_execute E cur (lit "SHOW TABLES") w1 = (Return tt, w2) ->
    cursor_fetchall E cur w2 = (Return tables, w3) ->
    describe_call_fails cur tables w3 e w' ->
    metadata_call_fails w e w'
| close_fails : forall cur tables w1 w2 w3 w4,
    db_cursor E w = (Return cur, w1) ->
    cursor_execute E cur (lit "SHOW TABLES") w1 = (Return tt, w2) ->
    cursor_fetchall E cur w2 = (Return tables, w3) ->
    tables_described cur tables w3 w4 ->
    cursor_close E cur w4 = (Raise e, w') ->
    metadata_call_fails w e w'.

(** The statements [get_schema_info] sends. *)
Definition metadata_statement (q : str) : Prop :=
  q = lit "SHOW TABLES" \/ exists t, q = lit "DESCRIBE " ++ t.

(** Two calls answer alike and leave worlds related by [R]. *)
Definition same_answer {A : Type} (R : world E -> world E -> Prop)
  (x y : outcome A * world E) : Prop :=
  fst x = fst y /\ R (snd x) (snd y).

(** [R] relates worlds that hold the same database as far as schema
    inspection can tell: every call [get_schema_info] makes answers alike
    in related worlds and leaves related worlds. *)
Record same_database (R : world E -> world E -> Prop) : Prop := {
  same_cursor : forall w w', R w w' ->
    same_answer R (db_cursor E w) (db_cursor E w');
  same_execute : forall cur q w w', metadata_statement q -> R w w' ->
    same_answer R (cursor_execute E cur q w) (cursor_execute E cur q w');
  same_fetchall : forall cur w w', R w w' ->
    same_answer R (cursor_fetchall E cur w) (cursor_fetchall E cur w');
  same_close : forall cur w w', R w w' ->
    same_answer R (cursor_close E cur w) (cursor_close E cur w')
}.

(** The state in which [answer] starts: the user's message appended and drawn. *)
Definition asked (user_query : str) (s : state E) : state E :=
  {| chat_history := chat_history s ++ [HumanMessage user_query];
     screen := screen s ++ [st_markdown (lit "user") user_query];
     outside := outside s |}.

(** Two runs end alike: the same outcome, in worlds related by [R]. *)
Definition alike {A : Type} (R : world E -> world E -> Prop)
  (x y : outcome A * state E) : Prop :=
  fst x = fst y /\ R (outside (snd x)) (outside (snd y)).

(** A computation that leaves the transcript and the screen as they are. *)
Definition quiet {A : Type} (m : M E A) : Prop :=
  forall s, chat_history (snd (m s)) = chat_history s /\ screen (snd (m s)) = screen s.

End Reports.

(** ** A small database and a scripted model, to run the script on *)

Module Demo.

Local Open Scope string_scope.
Local Open Scope list_scope.

(** The connection is up or dropped, the model's next answer is fixed, and
    the open cursor holds the rows and descriptor of the last statement. *)
Record demo_world := {
  up : bool;
  reply : outcome str;
  result_set : option (list tuple * option (list tuple))
}.

Definition row (fields : list string) : tuple :=
  match fields with
  | [] => {| item0 := CStr []; items := [] |}
  | f :: rest => {| item0 := CStr (lit f); items := map (fun x => CStr (lit x)) rest |}
  end.

Definition int (digits : string) : cell :=
  CObj {| obj_type := lit "int"; obj_str := lit digits |}.

(** The database [shop] with the single table [users(id, name)], holding
    two rows. *)
Definition run_statement (q : str) : option (list tuple * option (list tuple)) :=
  if PyStr.eqb q (lit "SHOW TABLES") then
    Some ([row ["users"]], Some [row ["Tables_in_shop"]])
  else if PyStr.eqb q (lit "DESCRIBE users") then
    Some ([row ["id"; "int"; "NO"; "PRI"]; row ["name"; "varchar(64)"; "YES"; ""]],
          Some [row ["Field"]; row ["Type"]; row ["Null"]; row ["Key"]])
  else if PyStr.eqb q (lit "SELECT COUNT(*) FROM users;") then
    Some ([{| item0 := int "2"; items := [] |}], Some [row ["COUNT(*)"]])
  else if PyStr.eqb q (lit "SELECT * FROM users WHERE id = 0;") then
    Some ([], Some [row ["id"]; row ["name"]])
  else if PyStr.eqb q (lit "CREATE TABLE notes (body TEXT);") then
    Some ([], None)
  else None.

Definition with_result (w : demo_world) (r : option (list tuple * option (list tuple)))
  : demo_world :=
  {| up := up w; reply := reply w; result_set := r |}.

Definition env : Env := {|
  world := demo_world;
  cursor := unit;
  frame := list tuple * list cell;
  db_cursor := fun w =>
    if up w then (Return tt, with_result w None)
    else (Raise (Exception (lit "MySQL Connection not available.")), w);
  cursor_execute := fun _ q w =>
    match run_statement q with
    | Some r => (Return tt, with_result w (Some r))
    | None => (Raise (Exception (lit "1146 (42S02): Table 'shop.orders' doesn't exist")),
               with_result w None)
    end;
  cursor_fetchall := fun _ w =>
    match result_set w with
    | Some (rows, _) => (Return rows, w)
    | None => (Raise (Exception (lit "No result set to fetch from.")), w)
    end;
  cursor_description := fun _ w =>
    match result_set w with
    | Some (_, d) => d
    | None => None
    end;
  cursor_close := fun _ w => (Return tt, with_result w None);
  llm := fun _ w => (reply w, w);
  pd_DataFrame := fun rows columns => Return (rows, columns);
  streamlit_dataframe := fun _ => Return tt
|}.

(** The model's answer inside a Markdown fence with a language tag. *)
Definition fenced_reply : str :=
  lit "```sql" ++ nl ++ lit "SELECT COUNT(*) FROM users;" ++ nl ++ lit "```".

(** A fresh session on a live connection, the model about to answer [r]. *)
Definition session (r : outcome str) : state env :=
  @Build_state env initial_chat_history []
    {| up := true; reply := r; result_set := None |}.

(** A fresh session whose connection has dropped. *)
Definition session_down (r : outcome str) : state env :=
  @Build_state env initial_chat_history []
    {| up := false; reply := r; result_set := None |}.

Definition question : str := lit "How many rows in the users table?".

End Demo.

(** ** The rest of the script: replaying the transcript, starting up *)

(** [isinstance(msg, AIMessage)] *)
Definition is_AIMessage (m : message) : bool :=
  match m with
  | AIMessage _ => true
  | HumanMessage _ => false
  end.

Section Replay.

Variable E : Env.

(** The loop [for msg in st.session_state.chat_history:] that shows the
    messages of earlier runs. *)
Fixpoint show_messages (msgs : list message) : M E unit :=
  match msgs with
  | [] => ret tt
  | msg :: rest =>
      (if is_AIMessage msg
       then draw (st_markdown (lit "assistant") (content msg))
       else draw (st_markdown (lit "user") (content msg))) ;;;
      show_messages rest
  end.

Definition show_history : M E unit :=
  fun s => show_messages (chat_history s) s.

(** The widget the replay loop draws for one message. *)
Definition replayed (msg : message) : widget (frame E) :=
  st_markdown (lit (if is_AIMessage msg then "assistant" else "user")) (content msg).

(** A widget is plain Markdown text. *)
Definition is_markdown (w : widget (frame E)) : bool :=
  match w with
  | st_markdown _ _ => true
  | _ => false
  end.

End Replay.

(** [db_config]: the object [json.load] returned, a dict from the keys of
    the JSON file to a [str] or another value. *)
Definition config := str -> option cell.

(** The int literal [3306]. *)
Definition int_3306 : cell := CObj {| obj_type := lit "int"; obj_str := lit "3306" |}.

(** [d[key]] for one of the literal keys of the script: a missing key raises
    [KeyError], whose text is the key in single quotes. *)
Definition subscript (d : config) (key : string) : outcome cell :=
  match d (lit key) with
  | Some v => Return v
  | None => Raise (Exception (lit "'" ++ lit key ++ lit "'"))
  end.

(** [d.get(key, default)] *)
Definition dict_get (d : config) (key : string) (default : cell) : cell :=
  match d (lit key) with
  | Some v => v
  | None => default
  end.

(** Truth value of [api_key]: [None] and the empty string are false. *)
Definition truthy_str (v : option str) : bool :=
  match v with
  | Some (_ :: _) => true
  | _ => false
  end.

(** What the top of the script puts on the page, outside any chat message. *)
Inductive notice :=
| page_error (body : str)
| page_success (body : str)
| page_title (body : str)
| page_config (page_title page_icon : str).

(** How the top of the script ends: it goes on to the chat, it halts in
    [st.stop()], or an exception ends the run. *)
Inductive verdict :=
| Ready
| Stopped
| Crashed (e : exn).

Section Startup.

Variable E : Env.

(** The collaborators of the top of the script: the environment after
    [load_dotenv()], reading and parsing a JSON file, the constructor of the
    chat model and [mysql.connector.connect], which stores the connection in
    the world. *)
Record Site := {
  getenv : str -> option str;
  read_json : str -> outcome config;
  ChatOpenAI : str -> outcome unit;
  mysql_connect : cell -> cell -> cell -> cell -> cell -> world E -> outcome unit * world E
}.

Variable S : Site.

Definition load_db_config (path : str) : outcome config := read_json S path.

(** The arguments of [mysql.connector.connect], evaluated left to right
    inside the [try]. *)
Definition connect_arguments (db_config : config)
  : outcome (cell * cell * cell * cell * cell) :=
  match subscript db_config "host" with
  | Raise e => Raise e
  | Return host =>
  match subscript db_config "user" with
  | Raise e => Raise e
  | Return user =>
  match subscript db_config "password" with
  | Raise e => Raise e
  | Return password =>
  match subscript db_config "database" with
  | Raise e => Raise e
  | Return database =>
      Return (host, user, password, database, dict_get db_config "port" int_3306)
  end end end end.

(** Step 5 of the top of the script: connect, or report and stop. *)
Definition connect_database (db_config : config) (w : world E)
  : verdict * list notice * world E :=
  match connect_arguments db_config with
  | Raise e => (Stopped, [page_error (lit "Connection failed: " ++ str_of_exn e)], w)
  | Return (host, user, password, database, port) =>
      match mysql_connect S host user password database port w with
      | (Return _, w') => (Ready, [page_success (lit "Connected to the database!")], w')
      | (Raise e, w') =>
          (Stopped, [page_error (lit "Connection failed: " ++ str_of_exn e)], w')
      end
  end.

(** Steps 1 to 5 of the top of the script. *)
Definition startup (w : world E) : verdict * list notice * world E :=
  let api_key := getenv S (lit "OPENAI_API_KEY") in
  if negb (truthy_str api_key) then
    (Stopped, [page_error (lit "OpenAI API key missing! Please check your .env file.")], w)
  else
    match load_db_config (lit "db_config.json") with
    | Raise e => (Crashed e, [], w)
    | Return db_config =>
        match ChatOpenAI S (match api_key with Some k => k | None => [] end) with
        | Raise e => (Crashed e, [], w)
        | Return _ =>
            let page :=
              [page_config (lit "Assistflow.ai Chat with MySQL (JSON)") (lit ":speech_balloon:");
               page_title (lit "Assistflow.ai Chat with MySQL (JSON-based Config)")] in
            let '(v, shown, w') := connect_database db_config w in
            (v, page ++ shown, w')
        end
    end.

End Startup.

(** ** Further runs of the script *)

Module Fixtures.

Local Open Scope string_scope.
Local Open Scope list_scope.

(** The demo database behind a pandas that rejects the rows. *)
Definition env_bad_frame : Env := {|
  world := Demo.demo_world;
  cursor := unit;
  frame := list tuple * list cell;
  db_cursor := db_cursor Demo.env;
  cursor_execute := cursor_execute Demo.env;
  cursor_fetchall := cursor_fetchall Demo.env;
  cursor_description := cursor_description Demo.env;
  cursor_close := cursor_close Demo.env;
  llm := llm Demo.env;
  pd_DataFrame := fun _ _ =>
    Raise (Exception (lit "2 columns passed, passed data had 1 columns"));
  streamlit_dataframe := streamlit_dataframe Demo.env
|}.

Definition session_bad_frame (r : outcome str) : state env_bad_frame :=
  @Build_state env_bad_frame initial_chat_history []
    {| Demo.up := true; Demo.reply := r; Demo.result_set := None |}.

(** A database without tables, whose cursor cannot be closed. *)
Definition env_empty : Env := {|
  world := Demo.demo_world;
  cursor := unit;
  frame := list tuple * list cell;
  db_cursor := db_cursor Demo.env;
  cursor_execute := fun _ q w =>
    if PyStr.eqb q (lit "SHOW TABLES")
    then (Return tt, Demo.with_result w (Some ([], Some [Demo.row ["Tables_in_empty"]])))
    else cursor_execute Demo.env tt q w;
  cursor_fetchall := cursor_fetchall Demo.env;
  cursor_description := cursor_description Demo.env;
  cursor_close := fun _ w =>
    if Demo.up w then (Return tt, Demo.with_result w None)
    else (Raise (Exception (lit "MySQL Connection not available.")), w);
  llm := llm Demo.env;
  pd_DataFrame := pd_DataFrame Demo.env;
  streamlit_dataframe := streamlit_dataframe Demo.env
|}.

Definition session_empty (r : outcome str) : state env_empty :=
  @Build_state env_empty initial_chat_history []
    {| Demo.up := true; Demo.reply := r; Demo.result_set := None |}.

(** A connector whose connection drops on the first statement, so that the
    cursor can be opened and used but not closed. *)
Definition env_dropping : Env := {|
  world := Demo.demo_world;
  cursor := unit;
  frame := list tuple * list cell;
  db_cursor := db_cursor Demo.env;
  cursor_execute := fun _ q w =>
    match Demo.run_statement q with
    | Some r => (Return tt, {| Demo.up := false; Demo.reply := Demo.reply w;
                               Demo.result_set := Some r |})
    | None => cursor_execute Demo.env tt q w
    end;
  cursor_fetchall := cursor_fetchall Demo.env;
  cursor_description := cursor_description Demo.env;
  cursor_close := cursor_close env_empty;
  llm := llm Demo.env;
  pd_DataFrame := pd_DataFrame Demo.env;
  streamlit_dataframe := streamlit_dataframe Demo.env
|}.

Definition session_dropping (r : outcome str) : state env_dropping :=
  @Build_state env_dropping initial_chat_history []
    {| Demo.up := true; Demo.reply := r; Demo.result_set := None |}.

(** The demo database with a second table, [orders], listed by
    [SHOW TABLES] but gone by the time it is described. *)
Definition env_two_tables : Env := {|
  world := Demo.demo_world;
  cursor := unit;
  frame := list tuple * list cell;
  db_cursor := db_cursor Demo.env;
  cursor_execute := fun _ q w =>
    if PyStr.eqb q (lit "SHOW TABLES")
    then (Return tt,
          Demo.with_result w
            (Some ([Demo.row ["users"]; Demo.row ["orders"]],
                   Some [Demo.row ["Tables_in_shop"]])))
    else cursor_execute Demo.env tt q w;
  cursor_fetchall := cursor_fetchall Demo.env;
  cursor_description := cursor_description Demo.env;
  cursor_close := cursor_close Demo.env;
  llm := llm Demo.env;
  pd_DataFrame := pd_DataFrame Demo.env;
  streamlit_dataframe := streamlit_dataframe Demo.env
|}.

Definition session_two_tables (r : outcome str) : state env_two_tables :=
  @Build_state env_two_tables initial_chat_history []
    {| Demo.up := true; Demo.reply := r; Demo.result_set := None |}.

(** Some name occurs twice. *)
Fixpoint repeats (names : list str) : bool :=
  match names with
  | [] => false
  | n :: rest => existsb (PyStr.eqb n) rest || repeats rest
  end.

(** The demo database behind a Streamlit that refuses a frame with
    duplicate column names, and a query that selects a column twice. *)
Definition env_duplicate_columns : Env := {|
  world := Demo.demo_world;
  cursor := unit;
  frame := list tuple * list cell;
  db_cursor := db_cursor Demo.env;
  cursor_execute := fun _ q w =>
    if PyStr.eqb q (lit "SELECT id, id FROM users;")
    then (Return tt,
          Demo.with_result w
            (Some ([{| item0 := Demo.int "1"; items := [Demo.int "1"] |};
                    {| item0 := Demo.int "2"; items := [Demo.int "2"] |}],
                   Some [Demo.row ["id"]; Demo.row ["id"]])))
    else cursor_execute Demo.env tt q w;
  cursor_fetchall := cursor_fetchall Demo.env;
  cursor_description := cursor_description Demo.env;
  cursor_close := cursor_close Demo.env;
  llm := llm Demo.env;
  pd_DataFrame := pd_DataFrame Demo.env;
  streamlit_dataframe := fun df =>
    if repeats (map format (snd df))
    then Raise (Exception (lit "Duplicate column names found: ['id', 'id']"))
    else Return tt
|}.

Definition session_duplicate_columns (r : outcome str) : state env_duplicate_columns :=
  @Build_state env_duplicate_columns initial_chat_history []
    {| Demo.up := true; Demo.reply := r; Demo.result_set := None |}.

(** A [db_config.json] with the four required keys and no port. *)
Definition config_without_port : config := fun k =>
  if PyStr.eqb k (lit "host") then Some (CStr (lit "localhost"))
  else if PyStr.eqb k (lit "user") then Some (CStr (lit "assist"))
  else if PyStr.eqb k (lit "password") then Some (CStr (lit "secret"))
  else if PyStr.eqb k (lit "database") then Some (CStr (lit "shop"))
  else None.

(** A [db_config.json] that lacks the password. *)
Definition config_without_password : config := fun k =>
  if PyStr.eqb k (lit "password") then None else config_without_port k.

(** A machine with the given API key and configuration, whose MySQL server
    listens on port 3306 only. *)
Definition site (key : option str) (file : outcome config) : Site Demo.env :=
  @Build_Site Demo.env
    (fun name => if PyStr.eqb name (lit "OPENAI_API_KEY") then key else None)
    (fun path =>
       if PyStr.eqb path (lit "db_config.json") then file
       else Raise (Exception (lit "[Errno 2] No such file or directory")))
    (fun _ => Return tt)
    (fun host user password database port (w : Demo.demo_world) =>
       if PyStr.eqb (format port) (lit "3306")
       then (Return tt, {| Demo.up := true; Demo.reply := Demo.reply w;
                           Demo.result_set := None |})
       else (Raise (Exception (lit "2003: Can't connect to MySQL server")), w)).

(** A [db_config.json] that names a port on which nothing listens. *)
Definition config_wrong_port : config := fun k =>
  if PyStr.eqb k (lit "port") then Some (Demo.int "3307") else config_without_port k.

Definition offline : Demo.demo_world :=
  {| Demo.up := false; Demo.reply := Raise (Exception []); Demo.result_set := None |}.

End Fixtures.

(** * Properties *)

(** ** Stripping *)

Section StripFacts.

Variable p : char -> bool.

Lemma lstrip_by_leading (s : str) : leading p (lstrip_by p s) = false.
Proof.
  induction s as [|c s IH]; simpl; [reflexivity|].
  destruct (p c) eqn:Hc; [exact IH | simpl; exact Hc].
Qed.

Lemma lstrip_by_id (s : str) : leading p s = false -> lstrip_by p s = s.
Proof.
  destruct s as [|c s]; simpl; [reflexivity|].
  intros ->. reflexivity.
Qed.

Lemma lstrip_by_snoc (s : str) (c : char) :
  p c = false -> lstrip_by p (s ++ [c]) = lstrip_by p s ++ [c].
Proof.
  intros Hc. induction s as [|d s IH]; simpl.
  - rewrite Hc. reflexivity.
  - destruct (p d); [exact IH | reflexivity].
Qed.

Lemma rstrip_by_trailing (s : str) : trailing p (rstrip_by p s) = false.
Proof.
  unfold trailing, rstrip_by. rewrite rev_involutive. apply lstrip_by_leading.
Qed.

Lemma rstrip_by_id (s : str) : trailing p s = false -> rstrip_by p s = s.
Proof.
  unfold trailing, rstrip_by. intros H.
  rewrite (lstrip_by_id _ H). apply rev_involutive.
Qed.

Lemma trailing_snoc (q : char -> bool) (s : str) (c : char) :
  trailing q (s ++ [c]) = q c.
Proof. unfold trailing. rewrite rev_app_distr. reflexivity. Qed.

(** The right scan keeps a first character that does not match. *)
Lemma rstrip_by_keeps_head (q : char -> bool) (s : str) :
  leading p s = false -> leading q (rstrip_by p s) = leading q s.
Proof.
  destruct s as [|c s]; simpl; [reflexivity|].
  intros Hc. unfold rstrip_by. simpl.
  rewrite (lstrip_by_snoc _ Hc), rev_app_distr. reflexivity.
Qed.

(** The left scan keeps a last character that does not match. *)
Lemma lstrip_by_keeps_last (q : char -> bool) (s : str) :
  trailing p s = false -> trailing q (lstrip_by p s) = trailing q s.
Proof.
  intros H.
  rewrite <- (rev_involutive s) in *.
  destruct (rev s) as [|c r]; [reflexivity|].
  simpl in *. rewrite trailing_snoc in H.
  rewrite (lstrip_by_snoc _ H), !trailing_snoc. reflexivity.
Qed.

Lemma strip_by_leading (s : str) : leading p (strip_by p s) = false.
Proof.
  unfold strip_by.
  rewrite rstrip_by_keeps_head; apply lstrip_by_leading.
Qed.

Lemma strip_by_trailing (s : str) : trailing p (strip_by p s) = false.
Proof. apply rstrip_by_trailing. Qed.

(** Stripping [p] cannot expose a leading [q] unless a [p] was removed there. *)
Lemma strip_by_exposes_head (q : char -> bool) (s : str) :
  leading p s = false -> leading q (strip_by p s) = leading q s.
Proof.
  intros H. unfold strip_by. rewrite (lstrip_by_id _ H).
  apply rstrip_by_keeps_head, H.
Qed.

Lemma strip_by_exposes_last (q : char -> bool) (s : str) :
  trailing p s = false -> trailing q (strip_by p s) = trailing q s.
Proof.
  intros H. unfold strip_by.
  rewrite rstrip_by_id.
  - apply lstrip_by_keeps_last, H.
  - rewrite lstrip_by_keeps_last; exact H.
Qed.

End StripFacts.

(** ** Running the script step by step *)

Section Steps.

Variable E : Env.

Lemma call_run (A : Type) (op : world E -> outcome A * world E) (s : state E) o w :
  op (outside s) = (o, w) -> call op s = (o, set_outside s w).
Proof. unfold call. intros ->. reflexivity. Qed.

Lemma bind_return (A B : Type) (m : M E A) (k : A -> M E B) (s s' : state E) a :
  m s = (Return a, s') -> bind m k s = k a s'.
Proof. unfold bind. intros ->. reflexivity. Qed.

Lemma bind_raise (A B : Type) (m : M E A) (k : A -> M E B) (s s' : state E) e :
  m s = (Raise e, s') -> bind m k s = (Raise e, s').
Proof. unfold bind. intros ->. reflexivity. Qed.

Lemma generate_sql_run (schema_info query : str) (s : state E) o w :
  llm E (format_messages schema_info query) (outside s) = (o, w) ->
  generate_sql schema_info query s =
    (match o with
     | Return response_content => Return (strip_chars (lit "`") (strip response_content))
     | Raise e => Raise e
     end, set_outside s w).
Proof.
  intros H. unfold generate_sql, bind.
  rewrite (call_run _ _ H). destruct o; reflexivity.
Qed.

End Steps.

(** ** Translation: what [generate_sql] returns *)

(** C2, as amended.  When the model answers [response], [generate_sql]
    returns the response stripped of whitespace and then of backticks.  The
    result never starts or ends with a backtick; it starts (ends) with
    whitespace only if a backtick was removed at that end, so it has no
    leading or trailing whitespace whenever the whitespace-stripped response
    neither starts nor ends with a backtick. *)
Theorem generate_sql_strips_backticks (E : Env) (schema_info query : str)
  (s : state E) (response : str) (w : world E) :
  llm E (format_messages schema_info query) (outside s) = (Return response, w) ->
  exists sql_query,
    generate_sql schema_info query s = (Return sql_query, set_outside s w) /\
    sql_query = strip_chars (lit "`") (strip response) /\
    leading (among (lit "`")) sql_query = false /\
    trailing (among (lit "`")) sql_query = false /\
    (leading (among (lit "`")) (strip response) = false ->
     leading isspace sql_query = false) /\
    (trailing (among (lit "`")) (strip response) = false ->
     trailing isspace sql_query = false).
Proof.
  intros H. eexists. split; [exact (generate_sql_run _ _ _ H)|].
  split; [reflexivity|]. unfold strip_chars, strip.
  repeat split.
  - apply strip_by_leading.
  - apply strip_by_trailing.
  - intros Hb. rewrite (strip_by_exposes_head _ _ _ Hb). apply strip_by_leading.
  - intros Hb. rewrite (strip_by_exposes_last _ _ _ Hb). apply strip_by_trailing.
Qed.

Lemma generate_sql_strips_backticks_witness :
  exists sql_query,
    generate_sql (schema_text [(lit "users", [lit "id"; lit "name"])]) Demo.question
      (Demo.session (Return (lit " `SELECT COUNT(*) FROM users;` ")))
    = (Return sql_query,
       set_outside (Demo.session (Return (lit " `SELECT COUNT(*) FROM users;` ")))
         (outside (Demo.session (Return (lit " `SELECT COUNT(*) FROM users;` "))))) /\
    sql_query = lit "SELECT COUNT(*) FROM users;".
Proof.
  destruct (@generate_sql_strips_backticks Demo.env
              (schema_text [(lit "users", [lit "id"; lit "name"])]) Demo.question
              (Demo.session (Return (lit " `SELECT COUNT(*) FROM users;` ")))
              (lit " `SELECT COUNT(*) FROM users;` ")
              (outside (Demo.session (Return (lit " `SELECT COUNT(*) FROM users;` "))))
              eq_refl) as [sql_query [Hrun [Heq _]]].
  exists sql_query. split; [exact Hrun | rewrite Heq; vm_compute; reflexivity].
Defined.

(** C2, as stated, fails: a fenced answer with a language tag keeps the
    line break that stood inside the closing fence. *)
Lemma generate_sql_leaves_whitespace :
  let r := generate_sql (schema_text [(lit "users", [lit "id"; lit "name"])])
             Demo.question (Demo.session (Return Demo.fenced_reply)) in
  fst r = Return (lit "sql" ++ nl ++ lit "SELECT COUNT(*) FROM users;" ++ nl) /\
  ~ (forall sql_query, fst r = Return sql_query ->
       leading (among (lit "`")) sql_query = false /\
       trailing (among (lit "`")) sql_query = false /\
       leading isspace sql_query = false /\
       trailing isspace sql_query = false).
Proof.
  split; [vm_compute; reflexivity|].
  intros H.
  destruct (H _ eq_refl) as (_ & _ & _ & Hws).
  vm_compute in Hws. discriminate Hws.
Qed.

(** ** Which steps touch the transcript *)

Section Transcript.

Variable E : Env.

Lemma quiet_ret (A : Type) (a : A) : quiet (ret (E := E) a).
Proof. intros s. split; reflexivity. Qed.

Lemma quiet_lift (A : Type) (o : outcome A) : quiet (lift (E := E) o).
Proof. intros s. split; reflexivity. Qed.

Lemma quiet_call (A : Type) (op : world E -> outcome A * world E) : quiet (call op).
Proof. intros s. unfold call. destruct (op (outside s)). split; reflexivity. Qed.

Lemma quiet_read (A : Type) (attr : world E -> A) : quiet (read attr).
Proof. intros s. split; reflexivity. Qed.

Lemma quiet_bind (A B : Type) (m : M E A) (k : A -> M E B) :
  quiet m -> (forall a, quiet (k a)) -> quiet (bind m k).
Proof.
  intros Hm Hk s. unfold bind.
  destruct (Hm s) as [Hh Hs]. destruct (m s) as [[a|e] s1]; simpl in *.
  - destruct (Hk a s1) as [Hh' Hs']. split; congruence.
  - split; assumption.
Qed.

Lemma quiet_try_except (A : Type) (body : M E A) (handler : exn -> M E A) :
  quiet body -> (forall e, quiet (handler e)) -> quiet (try_except body handler).
Proof.
  intros Hm Hk s. unfold try_except.
  destruct (Hm s) as [Hh Hs]. destruct (body s) as [[a|e] s1]; simpl in *.
  - split; assumption.
  - destruct (Hk e s1) as [Hh' Hs']. split; congruence.
Qed.

Create HintDb quiet.
#[local] Hint Resolve quiet_ret quiet_lift quiet_call quiet_read : quiet.

Ltac quiet_steps :=
  repeat first
    [ apply quiet_bind; [|intros ?]
    | apply quiet_try_except; [|intros ?]
    | solve [auto with quiet] ].

Lemma quiet_describe_tables (cur : cursor E) (tables : list tuple) :
  forall schema_info, quiet (describe_tables cur tables schema_info).
Proof.
  induction tables as [|table rest IH]; intros schema_info; simpl.
  - apply quiet_ret.
  - quiet_steps; apply IH.
Qed.

Lemma quiet_get_schema_info : quiet (get_schema_info (E := E)).
Proof.
  unfold get_schema_info, get_schema_info_try.
  quiet_steps; apply quiet_describe_tables.
Qed.

Lemma quiet_generate_sql (schema_info query : str) :
  quiet (generate_sql (E := E) schema_info query).
Proof. unfold generate_sql. quiet_steps. Qed.

Lemma quiet_execute_query (query : str) : quiet (execute_query (E := E) query).
Proof. unfold execute_query, execute_query_try. quiet_steps. Qed.

(** The transcript and screen after a quiet step that ran from [s] to [s']. *)
Lemma quiet_run (A : Type) (m : M E A) (s s' : state E) (o : outcome A) :
  quiet m -> m s = (o, s') ->
  chat_history s' = chat_history s /\ screen s' = screen s.
Proof. intros Q H. specialize (Q s). rewrite H in Q. exact Q. Qed.

(** A non-empty question is appended, drawn, and then answered. *)
Lemma on_user_query_asked (user_query : str) (s : state E) :
  user_query <> [] -> on_user_query user_query s = answer user_query (asked user_query s).
Proof.
  destruct user_query as [|c q]; [congruence|]. intros _. reflexivity.
Qed.

End Transcript.

(** ** Substrings *)

Lemma startswith_app (pre rest : str) : startswith pre (pre ++ rest) = true.
Proof.
  induction pre as [|c pre IH]; simpl; [reflexivity|].
  rewrite N.eqb_refl. exact IH.
Qed.

Lemma contains_here (sub s : str) : startswith sub s = true -> contains sub s = true.
Proof. intros H. destruct s; simpl in *; rewrite H; reflexivity. Qed.

Lemma contains_middle (sub before after : str) :
  contains sub (before ++ sub ++ after) = true.
Proof.
  induction before as [|c before IH]; simpl.
  - apply contains_here, startswith_app.
  - rewrite IH. apply orb_true_r.
Qed.

Lemma endswith_app (suf before : str) : endswith suf (before ++ suf) = true.
Proof. unfold endswith. rewrite rev_app_distr. apply startswith_app. Qed.

(** ** The handler *)

Section Handler.

Variable E : Env.

(** Step 5 only ever adds to the transcript. *)
Lemma show_answer_history_grows (sql_query : str) (result : pyval) (columns : list cell)
  (s : state E) :
  exists more, chat_history (snd (show_answer sql_query result columns s))
               = chat_history s ++ more.
Proof.
  destruct result as [text|rows]; simpl.
  - eexists; reflexivity.
  - destruct (0 <? List.length rows).
    + unfold bind, lift. destruct (pd_DataFrame E rows columns) as [df|e]; simpl.
      * destruct (streamlit_dataframe E df); eexists; reflexivity.
      * exists []. symmetry. apply app_nil_r.
    + eexists; reflexivity.
Qed.

Lemma answer_history_grows (user_query : str) (s : state E) :
  exists more, chat_history (snd (answer user_query s)) = chat_history s ++ more.
Proof.
  unfold answer, bind.
  destruct (get_schema_info s) as [[schema|e] s1] eqn:H1;
    destruct (@quiet_run _ _ _ _ _ _ (@quiet_get_schema_info E) H1) as [Q1 _];
    [|exists []; simpl; rewrite app_nil_r; exact Q1].
  destruct (generate_sql schema user_query s1) as [[sql|e] s2] eqn:H2;
    destruct (@quiet_run _ _ _ _ _ _ (@quiet_generate_sql E schema user_query) H2) as [Q2 _];
    [|exists []; simpl; rewrite app_nil_r; congruence].
  destruct (execute_query sql s2) as [[[result columns]|e] s3] eqn:H3;
    destruct (@quiet_run _ _ _ _ _ _ (@quiet_execute_query E sql) H3) as [Q3 _];
    [|exists []; simpl; rewrite app_nil_r; congruence].
  destruct (show_answer_history_grows sql result columns s3) as [more Hm].
  exists more. rewrite Hm. congruence.
Qed.

(** The answer to a failed execution. *)
Lemma answer_failure (user_query schema sql msg : str) (columns : list cell)
  (s s1 s2 s3 : state E) :
  get_schema_info s = (Return schema, s1) ->
  generate_sql schema user_query s1 = (Return sql, s2) ->
  execute_query sql s2 = (Return (PyStr msg, columns), s3) ->
  answer user_query s =
    (Return tt,
     {| chat_history := chat_history s ++ [AIMessage (error_text sql msg)];
        screen := screen s ++ [st_error (lit "assistant") (error_text sql msg)];
        outside := outside s3 |}).
Proof.
  intros H1 H2 H3. unfold answer.
  rewrite (bind_return _ _ _ H1), (bind_return _ _ _ H2), (bind_return _ _ _ H3).
  destruct (@quiet_run _ _ _ _ _ _ (@quiet_get_schema_info E) H1) as [Qh1 Qs1].
  destruct (@quiet_run _ _ _ _ _ _ (@quiet_generate_sql E schema user_query) H2) as [Qh2 Qs2].
  destruct (@quiet_run _ _ _ _ _ _ (@quiet_execute_query E sql) H3) as [Qh3 Qs3].
  unfold show_answer, bind, append_history, draw. simpl.
  rewrite Qh3, Qh2, Qh1, Qs3, Qs2, Qs1. reflexivity.
Qed.

(** The answer to an execution that succeeded with no rows. *)
Lemma answer_no_rows (user_query schema sql : str) (columns : list cell)
  (s s1 s2 s3 : state E) :
  get_schema_info s = (Return schema, s1) ->
  generate_sql schema user_query s1 = (Return sql, s2) ->
  execute_query sql s2 = (Return (PyList [], columns), s3) ->
  answer user_query s =
    (Return tt,
     {| chat_history := chat_history s ++ [AIMessage (no_results_text sql)];
        screen := screen s ++ [st_markdown (lit "assistant") (no_results_text sql)];
        outside := outside s3 |}).
Proof.
  intros H1 H2 H3. unfold answer.
  rewrite (bind_return _ _ _ H1), (bind_return _ _ _ H2), (bind_return _ _ _ H3).
  destruct (@quiet_run _ _ _ _ _ _ (@quiet_get_schema_info E) H1) as [Qh1 Qs1].
  destruct (@quiet_run _ _ _ _ _ _ (@quiet_generate_sql E schema user_query) H2) as [Qh2 Qs2].
  destruct (@quiet_run _ _ _ _ _ _ (@quiet_execute_query E sql) H3) as [Qh3 Qs3].
  unfold show_answer, bind, append_history, draw. simpl.
  rewrite Qh3, Qh2, Qh1, Qs3, Qs2, Qs1. reflexivity.
Qed.

End Handler.

(** ** Translation failure *)

(** C1, as amended.  When the translation step raises, the exception leaves
    the handler: the transcript has gained the user's message and no
    assistant message.  The transcript is kept, and the next question is
    appended after it. *)
Theorem translation_error_escapes (E : Env) (user_query schema_info : str)
  (s s1 : state E) (e : exn) (w : world E) :
  user_query <> [] ->
  get_schema_info (asked user_query s) = (Return schema_info, s1) ->
  llm E (format_messages schema_info user_query) (outside s1) = (Raise e, w) ->
  fst (on_user_query user_query s) = Raise e /\
  chat_history (snd (on_user_query user_query s))
  = chat_history s ++ [HumanMessage user_query] /\
  forall next_query, next_query <> [] ->
    exists more,
      chat_history (snd (on_user_query next_query (snd (on_user_query user_query s))))
      = chat_history s ++ [HumanMessage user_query; HumanMessage next_query] ++ more.
Proof.
  intros Hq H1 H2.
  destruct (@quiet_run _ _ _ _ _ _ (@quiet_get_schema_info E) H1) as [Qh _].
  assert (Hrun : on_user_query user_query s = (Raise e, set_outside s1 w)).
  { rewrite (on_user_query_asked _ Hq). unfold answer.
    rewrite (bind_return _ _ _ H1).
    apply bind_raise. rewrite (generate_sql_run _ _ _ H2). reflexivity. }
  rewrite Hrun. simpl. rewrite Qh. simpl.
  repeat split.
  intros next_query Hn. rewrite (on_user_query_asked _ Hn).
  destruct (answer_history_grows next_query (asked next_query (set_outside s1 w)))
    as [more Hm].
  exists more. rewrite Hm. simpl. rewrite Qh. simpl.
  rewrite <- !app_assoc. reflexivity.
Qed.

Lemma translation_error_escapes_witness :
  fst (on_user_query Demo.question
         (Demo.session (Raise (Exception (lit "Connection error.")))))
  = Raise (Exception (lit "Connection error.")) /\
  chat_history (snd (on_user_query Demo.question
                       (Demo.session (Raise (Exception (lit "Connection error."))))))
  = initial_chat_history ++ [HumanMessage Demo.question].
Proof.
  assert (Hq : Demo.question <> []) by (vm_compute; discriminate).
  destruct (@translation_error_escapes Demo.env Demo.question
              (lit "Tables: users (id, name)")
              (Demo.session (Raise (Exception (lit "Connection error."))))
              _ (Exception (lit "Connection error.")) _
              Hq eq_refl eq_refl) as (Hraise & Hhist & _).
  split; [exact Hraise | exact Hhist].
Defined.

(** C1, as stated, fails: with the completion service down the handler
    ends in the exception, and the transcript holds the question but no
    assistant message after it. *)
Lemma translation_error_adds_no_assistant_turn :
  let r := on_user_query Demo.question
             (Demo.session (Raise (Exception (lit "Connection error.")))) in
  fst r = Raise (Exception (lit "Connection error.")) /\
  chat_history (snd r) = initial_chat_history ++ [HumanMessage Demo.question] /\
  ~ (fst r = Return tt /\
     exists text, chat_history (snd r)
                  = initial_chat_history ++ [HumanMessage Demo.question; AIMessage text]).
Proof.
  repeat split; try (vm_compute; reflexivity).
  intros [Hret _]. vm_compute in Hret. discriminate Hret.
Qed.

(** ** Reporting a failed execution *)

(** C4, as amended.  When execution returns the failure [message] for the
    generated [sql_query], the handler appends one assistant message whose
    text is ["**Generated SQL**: `<sql>`\n\n**Error**: <message>"]; the
    transcript's last entry contains ["**Error**:"]. *)
Theorem failure_is_reported (E : Env) (user_query schema_info sql_query message : str)
  (columns : list cell) (s s1 s2 s3 : state E) :
  user_query <> [] ->
  get_schema_info (asked user_query s) = (Return schema_info, s1) ->
  generate_sql schema_info user_query s1 = (Return sql_query, s2) ->
  execute_query sql_query s2 = (Return (PyStr message, columns), s3) ->
  let text := lit "**Generated SQL**: `" ++ sql_query ++ lit "`" ++ nl ++ nl ++
              lit "**Error**: " ++ message in
  fst (on_user_query user_query s) = Return tt /\
  chat_history (snd (on_user_query user_query s))
  = chat_history s ++ [HumanMessage user_query; AIMessage text] /\
  contains (lit "**Error**:") text = true.
Proof.
  intros Hq H1 H2 H3 text.
  assert (Hsub : contains (lit "**Error**:") text = true).
  { unfold text.
    change (lit "**Error**: ") with (lit "**Error**:" ++ lit " ").
    rewrite <- (app_assoc (lit "**Error**:")).
    rewrite 4 app_assoc. apply contains_middle. }
  rewrite (on_user_query_asked _ Hq), (@answer_failure _ _ _ _ _ _ _ _ _ _ H1 H2 H3).
  split; [reflexivity|]. split; [|exact Hsub].
  cbn [snd chat_history asked]. rewrite <- app_assoc. reflexivity.
Qed.

Lemma failure_is_reported_witness :
  chat_history (snd (on_user_query Demo.question
                       (Demo.session (Return (lit "SELECT * FROM orders;")))))
  = initial_chat_history ++
    [HumanMessage Demo.question;
     AIMessage (lit "**Generated SQL**: `SELECT * FROM orders;`" ++ nl ++ nl ++
                lit "**Error**: 1146 (42S02): Table 'shop.orders' doesn't exist")].
Proof.
  assert (Hq : Demo.question <> []) by (vm_compute; discriminate).
  destruct (@failure_is_reported Demo.env Demo.question
              (lit "Tables: users (id, name)") (lit "SELECT * FROM orders;")
              (lit "1146 (42S02): Table 'shop.orders' doesn't exist") []
              (Demo.session (Return (lit "SELECT * FROM orders;"))) _ _ _
              Hq eq_refl eq_refl eq_refl) as (_ & Hhist & _).
  exact Hhist.
Defined.

(** C4, as stated, fails: the text carries Markdown markup, so it is not
    ["Generated SQL: <sql>\n\nError: <message>"] and ["Error:"] does not
    occur in it. *)
Lemma failure_text_has_markup :
  let r := on_user_query Demo.question
             (Demo.session (Return (lit "SELECT * FROM orders;"))) in
  let said := content (last (chat_history (snd r)) (HumanMessage [])) in
  said <> lit "Generated SQL: SELECT * FROM orders;" ++ nl ++ nl ++
          lit "Error: 1146 (42S02): Table 'shop.orders' doesn't exist" /\
  contains (lit "Error:") said = false.
Proof.
  split; [vm_compute; discriminate | vm_compute; reflexivity].
Qed.

(** ** Reporting an empty result *)

(** C6, as amended.  When execution succeeds with zero rows, the handler
    appends one assistant message whose text is
    ["**Generated SQL**: `<sql>`\n\nNo results found."]; it ends in
    ["No results found."], and the handler draws that text and no data
    frame. *)
Theorem no_rows_is_reported (E : Env) (user_query schema_info sql_query : str)
  (columns : list cell) (s s1 s2 s3 : state E) :
  user_query <> [] ->
  get_schema_info (asked user_query s) = (Return schema_info, s1) ->
  generate_sql schema_info user_query s1 = (Return sql_query, s2) ->
  execute_query sql_query s2 = (Return (PyList [], columns), s3) ->
  let text := lit "**Generated SQL**: `" ++ sql_query ++ lit "`" ++ nl ++ nl ++
              lit "No results found." in
  let drawn := [st_markdown (lit "user") user_query;
                st_markdown (lit "assistant") text] in
  fst (on_user_query user_query s) = Return tt /\
  chat_history (snd (on_user_query user_query s))
  = chat_history s ++ [HumanMessage user_query; AIMessage text] /\
  endswith (lit "No results found.") text = true /\
  screen (snd (on_user_query user_query s)) = screen s ++ drawn /\
  existsb is_dataframe drawn = false.
Proof.
  intros Hq H1 H2 H3 text drawn.
  assert (Hend : endswith (lit "No results found.") text = true).
  { unfold text. rewrite 4 app_assoc. apply endswith_app. }
  rewrite (on_user_query_asked _ Hq), (@answer_no_rows _ _ _ _ _ _ _ _ _ H1 H2 H3).
  split; [reflexivity|].
  cbn [snd chat_history screen asked]. rewrite <- !app_assoc.
  repeat split. exact Hend.
Qed.

Lemma no_rows_is_reported_witness :
  chat_history (snd (on_user_query Demo.question
                       (Demo.session (Return (lit "SELECT * FROM users WHERE id = 0;")))))
  = initial_chat_history ++
    [HumanMessage Demo.question;
     AIMessage (lit "**Generated SQL**: `SELECT * FROM users WHERE id = 0;`" ++ nl ++ nl ++
                lit "No results found.")].
Proof.
  assert (Hq : Demo.question <> []) by (vm_compute; discriminate).
  destruct (@no_rows_is_reported Demo.env Demo.question
              (lit "Tables: users (id, name)") (lit "SELECT * FROM users WHERE id = 0;")
              [CStr (lit "id"); CStr (lit "name")]
              (Demo.session (Return (lit "SELECT * FROM users WHERE id = 0;"))) _ _ _
              Hq eq_refl eq_refl eq_refl) as (_ & Hhist & _).
  exact Hhist.
Defined.

(** C6, as stated, fails on the text: it carries Markdown markup and is not
    ["Generated SQL: <sql>\n\nNo results found."]. *)
Lemma no_rows_text_has_markup :
  let r := on_user_query Demo.question
             (Demo.session (Return (lit "SELECT * FROM users WHERE id = 0;"))) in
  let said := content (last (chat_history (snd r)) (HumanMessage [])) in
  fst r = Return tt /\
  said <> lit "Generated SQL: SELECT * FROM users WHERE id = 0;" ++ nl ++ nl ++
          lit "No results found.".
Proof.
  split; [vm_compute; reflexivity | vm_compute; discriminate].
Qed.

(** ** Execution: what [execute_query] returns *)

Section Execution.

Variable E : Env.

(** The [except] clause turns every exception of the [try] block into a
    returned pair. *)
Lemma execute_query_cases (query : str) (s : state E) :
  (exists r s', execute_query_try query s = (Return r, s') /\
                execute_query query s = (Return r, s')) \/
  (exists e s', execute_query_try query s = (Raise e, s') /\
                execute_query query s = (Return (PyStr (str_of_exn e), []), s')).
Proof.
  unfold execute_query, try_except.
  destruct (execute_query_try query s) as [[r|e] s'].
  - left. exists r, s'. split; reflexivity.
  - right. exists e, s'. split; reflexivity.
Qed.

(** What the [try] block returns is the list [fetchall] produced. *)
Lemma execute_query_try_returns (query : str) (s s' : state E) result columns :
  execute_query_try query s = (Return (result, columns), s') ->
  exists cur w w' rows,
    cursor_fetchall E cur w = (Return rows, w') /\ result = PyList rows.
Proof.
  unfold execute_query_try, bind, call, read, ret.
  destruct (db_cursor E (outside s)) as [[cur|e] w1]; [|discriminate].
  cbn [outside set_outside].
  destruct (cursor_execute E cur query w1) as [[[]|e] w2]; [|discriminate].
  cbn [outside set_outside].
  destruct (cursor_fetchall E cur w2) as [[rows|e] w3] eqn:Hf; [|discriminate].
  cbn [outside set_outside].
  destruct (cursor_close E cur w3) as [[[]|e] w4]; [|discriminate].
  intros H. injection H as Hr _ _.
  exists cur, w2, w3, rows. split; [exact Hf | symmetry; exact Hr].
Qed.

Lemma contains_self (t : str) : contains t t = true.
Proof.
  apply contains_here. rewrite <- (app_nil_r t) at 2. apply startswith_app.
Qed.

End Execution.

(** C3.  [execute_query] never raises: for every SQL string it returns a
    pair that is either the fetched rows with the column list (the [try]
    block returned) or the text of the exception the [try] block raised
    with an empty list, and never both. *)
Theorem execute_query_never_raises (E : Env) (query : str) (s : state E) :
  exists r s',
    execute_query query s = (Return r, s') /\
    ((exists rows columns,
        r = (PyList rows, columns) /\
        execute_query_try query s = (Return r, s')) \/
     (exists e message,
        r = (PyStr message, []) /\
        execute_query_try query s = (Raise e, s') /\
        message = str_of_exn e /\ contains (str_of_exn e) message = true)) /\
    ~ ((exists rows columns, r = (PyList rows, columns)) /\
       (exists message columns, r = (PyStr message, columns))).
Proof.
  destruct (execute_query_cases query s) as [(r & s' & Ht & Hq) | (e & s' & Ht & Hq)].
  - destruct r as [result columns].
    destruct (execute_query_try_returns _ _ Ht) as (cur & w & w' & rows & _ & ->).
    exists (PyList rows, columns), s'. split; [exact Hq|]. split.
    + left. exists rows, columns. split; [reflexivity | exact Ht].
    + intros [_ (m & c & Hm)]. discriminate Hm.
  - exists (PyStr (str_of_exn e), []), s'. split; [exact Hq|]. split.
    + right. exists e, (str_of_exn e). repeat split; [exact Ht | apply contains_self].
    + intros [(rows & c & Hm) _]. discriminate Hm.
Qed.

(** C9.  When every call of the [try] block succeeds, [execute_query]
    returns the fetched rows with a column list that is empty if the cursor
    has no result descriptor, and otherwise holds the first field of each
    descriptor entry. *)
Theorem execute_query_columns (E : Env) (query : str) (s : state E)
  (cur : cursor E) (rows : list tuple) (w1 w2 w3 w4 : world E) :
  db_cursor E (outside s) = (Return cur, w1) ->
  cursor_execute E cur query w1 = (Return tt, w2) ->
  cursor_fetchall E cur w2 = (Return rows, w3) ->
  cursor_close E cur w3 = (Return tt, w4) ->
  exists columns,
    execute_query query s = (Return (PyList rows, columns), set_outside s w4) /\
    (cursor_description E cur w3 = None -> columns = []) /\
    (forall description, cursor_description E cur w3 = Some description ->
                         columns = map item0 description).
Proof.
  intros Hc He Hf Hx.
  unfold execute_query, try_except, execute_query_try, bind, call, read, ret.
  rewrite Hc. cbn [outside set_outside]. rewrite He. cbn [outside set_outside].
  rewrite Hf. cbn [outside set_outside]. rewrite Hx.
  eexists. split; [reflexivity|]. split.
  - intros ->. reflexivity.
  - intros description ->. destruct description; reflexivity.
Qed.

Lemma execute_query_columns_witness :
  exists columns,
    execute_query (lit "CREATE TABLE notes (body TEXT);") (Demo.session (Raise (Exception [])))
    = (Return (PyList [], columns),
       set_outside (Demo.session (Raise (Exception [])))
                   (outside (Demo.session (Raise (Exception []))))) /\
    columns = [].
Proof.
  destruct (@execute_query_columns Demo.env (lit "CREATE TABLE notes (body TEXT);")
              (Demo.session (Raise (Exception []))) tt [] _ _ _ _
              eq_refl eq_refl eq_refl eq_refl) as (columns & Hrun & Hnone & _).
  exists columns. split; [exact Hrun | exact (Hnone eq_refl)].
Defined.

(** C10.  The caller's test [isinstance(result, str)] tells the two cases of
    [execute_query] apart without error: the first component is a [str]
    exactly when the [try] block raised, and then the pair is the
    exception's text with an empty list; otherwise the first component is
    the list [fetchall] produced, which is not a [str]. *)
Theorem result_type_discriminates (E : Env) (query : str) (s : state E) :
  exists result columns s',
    execute_query query s = (Return (result, columns), s') /\
    ((isinstance_str result = true /\
      exists e, execute_query_try query s = (Raise e, s') /\
                result = PyStr (str_of_exn e) /\ columns = []) \/
     (isinstance_str result = false /\
      execute_query_try query s = (Return (result, columns), s') /\
      exists cur w w' rows,
        cursor_fetchall E cur w = (Return rows, w') /\ result = PyList rows)).
Proof.
  destruct (execute_query_cases query s) as [(r & s' & Ht & Hq) | (e & s' & Ht & Hq)].
  - destruct r as [result columns].
    exists result, columns, s'. split; [exact Hq|]. right.
    destruct (execute_query_try_returns _ _ Ht) as (cur & w & w' & rows & Hf & Hr).
    split; [rewrite Hr; reflexivity|]. split; [exact Ht|].
    exists cur, w, w', rows. split; assumption.
  - exists (PyStr (str_of_exn e)), [], s'. split; [exact Hq|]. left.
    split; [reflexivity|]. exists e. repeat split. exact Ht.
Qed.

(** ** Schema inspection: what [get_schema_info] returns *)

Section Inspection.

Variable E : Env.

Lemma str_items_names (cols : list str) :
  forall i, str_items i (map CStr cols) = Return cols.
Proof.
  induction cols as [|c cols IH]; intros i; simpl; [reflexivity|].
  rewrite IH. reflexivity.
Qed.

Lemma join_cells_names (sep : str) (cols : list str) :
  join_cells sep (map CStr cols) = Return (join sep cols).
Proof. unfold join_cells. rewrite str_items_names. reflexivity. Qed.

(** The loop over the reported tables adds one entry per table, in order. *)
Lemma describe_tables_reported (cur : cursor E) (cat : catalog) (w w' : world E) :
  columns_reported E cur cat w w' ->
  forall tables schema_info (s : state E),
    outside s = w ->
    map item0 tables = map (fun t => CStr (fst t)) cat ->
    describe_tables cur tables schema_info s =
      (Return (schema_info ++
               map (fun t => fst t ++ lit " (" ++ join (lit ", ") (snd t) ++ lit ")") cat),
       set_outside s w').
Proof.
  induction 1 as [w | t cols rest fetched w w1 w2 w3 He Hf Hn Hrest IH];
    intros tables schema_info s Hs Ht.
  - destruct tables; [|discriminate]. simpl. subst w.
    rewrite app_nil_r. destruct s; reflexivity.
  - destruct tables as [|table tables]; [discriminate|].
    simpl in Ht. injection Ht as Ht0 Ht. subst w.
    cbn [describe_tables]. rewrite Ht0. cbn [format].
    rewrite (bind_return _ _ _ (call_run _ _ He)).
    rewrite (bind_return _ _ _ (call_run _ (set_outside s w1) Hf)).
    rewrite Hn, join_cells_names. unfold lift, bind at 1.
    rewrite (IH tables _ (set_outside (set_outside s w1) w2) eq_refl Ht).
    cbn [map fst snd]. rewrite <- app_assoc. reflexivity.
Qed.

Lemma get_schema_info_reported (cat : catalog) (s : state E) (w' : world E) :
  catalog_reported E cat (outside s) w' ->
  get_schema_info s = (Return (schema_text cat), set_outside s w').
Proof.
  intros (cur & tables & w1 & w2 & w3 & w4 & Hc & He & Hf & Hn & Hcols & Hx).
  unfold get_schema_info, try_except, get_schema_info_try.
  rewrite (bind_return _ _ _ (call_run _ _ Hc)).
  rewrite (bind_return _ _ _ (call_run _ (set_outside s w1) He)).
  rewrite (bind_return _ _ _ (call_run _ (set_outside (set_outside s w1) w2) Hf)).
  rewrite (bind_return _ _ _
             (describe_tables_reported Hcols tables []
                (set_outside (set_outside (set_outside s w1) w2) w3) eq_refl Hn)).
  rewrite (bind_return _ _ _ (call_run _ (set_outside _ w4) Hx)).
  reflexivity.
Qed.

End Inspection.

(** C5.  When every metadata call succeeds and the database reports the
    catalog [cat], [get_schema_info] returns exactly
    ["Tables: t1 (c1, c2, ...), t2 (c1, ...), ..."] over the tables and
    columns in reported order; for the single table [users(id, name)] that
    is ["Tables: users (id, name)"]. *)
Theorem get_schema_info_renders_catalog (E : Env) (cat : catalog)
  (s : state E) (w' : world E) :
  catalog_reported E cat (outside s) w' ->
  get_schema_info s = (Return (schema_text cat), set_outside s w') /\
  (cat = [(lit "users", [lit "id"; lit "name"])] ->
   get_schema_info s = (Return (lit "Tables: users (id, name)"), set_outside s w')).
Proof.
  intros H. split.
  - apply get_schema_info_reported, H.
  - intros Hcat. rewrite (@get_schema_info_reported _ _ _ _ H), Hcat. reflexivity.
Qed.

Lemma get_schema_info_renders_catalog_witness :
  get_schema_info (Demo.session (Raise (Exception [])))
  = (Return (lit "Tables: users (id, name)"),
     set_outside (Demo.session (Raise (Exception [])))
                 (outside (Demo.session (Raise (Exception []))))).
Proof.
  assert (H : catalog_reported Demo.env [(lit "users", [lit "id"; lit "name"])]
                (outside (Demo.session (Raise (Exception []))))
                (outside (Demo.session (Raise (Exception []))))).
  { exists tt, [Demo.row ["users"%string]].
    do 4 eexists.
    split; [reflexivity|]. split; [reflexivity|]. split; [reflexivity|].
    split; [reflexivity|]. split.
    - eapply columns_reported_cons;
        [reflexivity | reflexivity | reflexivity | apply columns_reported_nil].
    - reflexivity. }
  exact (proj2 (@get_schema_info_renders_catalog Demo.env _ _ _ H) eq_refl).
Defined.

(** ** Schema inspection failure *)

Section MetadataFailure.

Variable E : Env.

(** A failing call inside the loop ends the loop with its exception. *)
Lemma describe_tables_fails (cur : cursor E) (tables : list tuple)
  (w : world E) (e : exn) (w' : world E) :
  describe_call_fails E cur tables w e w' ->
  forall schema_info (s : state E),
    outside s = w ->
    describe_tables cur tables schema_info s = (Raise e, set_outside s w').
Proof.
  induction 1 as [table rest w e w' He
                 | table rest w w1 e w' He Hf
                 | table rest fetched joined w w1 w2 e w' He Hf Hj Hrest IH];
    intros schema_info s Hs; subst w; cbn [describe_tables].
  - apply bind_raise. apply call_run, He.
  - rewrite (bind_return _ _ _ (call_run _ _ He)).
    apply bind_raise. apply (call_run _ (set_outside s w1)), Hf.
  - rewrite (bind_return _ _ _ (call_run _ _ He)).
    rewrite (bind_return _ _ _ (call_run _ (set_outside s w1) Hf)).
    rewrite Hj. unfold lift, bind at 1.
    apply (IH _ (set_outside (set_outside s w1) w2) eq_refl).
Qed.

(** A loop whose calls all succeed returns. *)
Lemma describe_tables_succeeds (cur : cursor E) (tables : list tuple) (w w' : world E) :
  tables_described E cur tables w w' ->
  forall schema_info (s : state E),
    outside s = w ->
    exists described,
      describe_tables cur tables schema_info s = (Return described, set_outside s w').
Proof.
  induction 1 as [w | table rest fetched joined w w1 w2 w3 He Hf Hj Hrest IH];
    intros schema_info s Hs; subst w; cbn [describe_tables].
  - exists schema_info. destruct s; reflexivity.
  - rewrite (bind_return _ _ _ (call_run _ _ He)).
    rewrite (bind_return _ _ _ (call_run _ (set_outside s w1) Hf)).
    rewrite Hj. unfold lift, bind at 1.
    apply (IH _ (set_outside (set_outside s w1) w2) eq_refl).
Qed.

(** Whichever metadata call fails, the [try] block ends in its exception,
    in the world that call left. *)
Lemma get_schema_info_try_fails (s : state E) (e : exn) (w' : world E) :
  metadata_call_fails E (outside s) e w' ->
  get_schema_info_try s = (Raise e, set_outside s w').
Proof.
  unfold get_schema_info_try.
  intros [Hc
         | cur w1 Hc He
         | cur w1 w2 Hc He Hf
         | cur tables w1 w2 w3 Hc He Hf Hd
         | cur tables w1 w2 w3 w4 Hc He Hf Hd Hx].
  - apply bind_raise. apply call_run, Hc.
  - rewrite (bind_return _ _ _ (call_run _ _ Hc)).
    apply bind_raise. apply (call_run _ (set_outside s w1)), He.
  - rewrite (bind_return _ _ _ (call_run _ _ Hc)).
    rewrite (bind_return _ _ _ (call_run _ (set_outside s w1) He)).
    apply bind_raise. apply (call_run _ (set_outside (set_outside s w1) w2)), Hf.
  - rewrite (bind_return _ _ _ (call_run _ _ Hc)).
    rewrite (bind_return _ _ _ (call_run _ (set_outside s w1) He)).
    rewrite (bind_return _ _ _ (call_run _ (set_outside (set_outside s w1) w2) Hf)).
    apply bind_raise.
    apply (describe_tables_fails Hd []
             (set_outside (set_outside (set_outside s w1) w2) w3) eq_refl).
  - rewrite (bind_return _ _ _ (call_run _ _ Hc)).
    rewrite (bind_return _ _ _ (call_run _ (set_outside s w1) He)).
    rewrite (bind_return _ _ _ (call_run _ (set_outside (set_outside s w1) w2) Hf)).
    destruct (describe_tables_succeeds Hd []
                (set_outside (set_outside (set_outside s w1) w2) w3) eq_refl)
      as (described & Hrun).
    rewrite (bind_return _ _ _ Hrun).
    rewrite (bind_raise _ _ _
               (call_run _ (set_outside (set_outside (set_outside (set_outside s w1) w2) w3) w4)
                  Hx)).
    reflexivity.
Qed.

End MetadataFailure.

(** C7.  [get_schema_info] never raises.  When any metadata call inside it
    fails with [e] (opening the cursor, [SHOW TABLES], a fetch, the
    [DESCRIBE] of any table, or closing the cursor), it returns the text of
    [e] in place of the schema.  The handler hands that text to
    [generate_sql] as the schema, so the prompt sent to the model contains
    it, and goes on with execution and the answer. *)
Theorem schema_failure_degrades (E : Env) (user_query : str) (s : state E)
  (e : exn) (w' : world E) :
  user_query <> [] ->
  metadata_call_fails E (outside s) e w' ->
  (forall s0 : state E, exists text s0', get_schema_info s0 = (Return text, s0')) /\
  get_schema_info_try (asked user_query s)
  = (Raise e, set_outside (asked user_query s) w') /\
  get_schema_info (asked user_query s)
  = (Return (str_of_exn e), set_outside (asked user_query s) w') /\
  on_user_query user_query s =
    (sql_query <- generate_sql (str_of_exn e) user_query ;;
     '(result, columns) <- execute_query sql_query ;;
     show_answer sql_query result columns) (set_outside (asked user_query s) w') /\
  (forall o w,
     llm E [HumanMessage (prompt_text (str_of_exn e) user_query)] w' = (o, w) ->
     generate_sql (str_of_exn e) user_query (set_outside (asked user_query s) w') =
       (match o with
        | Return response => Return (strip_chars (lit "`") (strip response))
        | Raise e' => Raise e'
        end, set_outside (asked user_query s) w)) /\
  contains (str_of_exn e) (prompt_text (str_of_exn e) user_query) = true.
Proof.
  intros Hq Hfail.
  assert (Ht : get_schema_info_try (asked user_query s)
               = (Raise e, set_outside (asked user_query s) w')).
  { apply get_schema_info_try_fails. exact Hfail. }
  assert (Hg : get_schema_info (asked user_query s)
               = (Return (str_of_exn e), set_outside (asked user_query s) w')).
  { unfold get_schema_info, try_except. rewrite Ht. reflexivity. }
  split; [|split; [exact Ht|split; [exact Hg|split; [|split]]]].
  - intros s0. unfold get_schema_info, try_except.
    destruct (get_schema_info_try s0) as [[text|e0] s0'].
    + exists text, s0'. reflexivity.
    + exists (str_of_exn e0), s0'. reflexivity.
  - rewrite (on_user_query_asked _ Hq). unfold answer.
    rewrite (bind_return _ _ _ Hg). reflexivity.
  - intros o w H.
    exact (generate_sql_run (str_of_exn e) user_query
             (set_outside (asked user_query s) w') H).
  - unfold prompt_text. rewrite 5 app_assoc. apply contains_middle.
Qed.

Lemma schema_failure_degrades_witness :
  get_schema_info (asked Demo.question
                     (Fixtures.session_two_tables (Return (lit "SELECT 1;"))))
  = (Return (lit "1146 (42S02): Table 'shop.orders' doesn't exist"),
     asked Demo.question (Fixtures.session_two_tables (Return (lit "SELECT 1;")))).
Proof.
  assert (Hq : Demo.question <> []) by (vm_compute; discriminate).
  assert (Hfail : metadata_call_fails Fixtures.env_two_tables
                    (outside (Fixtures.session_two_tables (Return (lit "SELECT 1;"))))
                    (Exception (lit "1146 (42S02): Table 'shop.orders' doesn't exist"))
                    (outside (Fixtures.session_two_tables (Return (lit "SELECT 1;"))))).
  { eapply (@describe_fails Fixtures.env_two_tables _ _ _ tt);
      [reflexivity | reflexivity | reflexivity |].
    eapply describe_fails_later; [reflexivity | reflexivity | reflexivity |].
    apply describe_fails_execute. reflexivity. }
  exact (proj1 (proj2 (proj2 (@schema_failure_degrades Fixtures.env_two_tables
                                Demo.question
                                (Fixtures.session_two_tables (Return (lit "SELECT 1;")))
                                _ _ Hq Hfail)))).
Defined.

(** ** Schema inspection on an unchanged database *)

Section Unchanged.

Variable E : Env.
Variable R : world E -> world E -> Prop.
Hypothesis same : same_database E R.

Lemma alike_ret (A : Type) (a : A) (s s' : state E) :
  R (outside s) (outside s') -> alike R (ret a s) (ret a s').
Proof. intros H. split; [reflexivity | exact H]. Qed.

Lemma alike_lift (A : Type) (o : outcome A) (s s' : state E) :
  R (outside s) (outside s') -> alike R (lift o s) (lift o s').
Proof. intros H. split; [reflexivity | exact H]. Qed.

Lemma alike_call (A : Type) (op : world E -> outcome A * world E) (s s' : state E) :
  same_answer E R (op (outside s)) (op (outside s')) ->
  alike R (call op s) (call op s').
Proof.
  unfold same_answer, alike, call.
  destruct (op (outside s)), (op (outside s')). simpl. tauto.
Qed.

Lemma alike_bind (A B : Type) (m : M E A) (k : A -> M E B) (s s' : state E) :
  alike R (m s) (m s') ->
  (forall a s1 s1', R (outside s1) (outside s1') -> alike R (k a s1) (k a s1')) ->
  alike R (bind m k s) (bind m k s').
Proof.
  unfold bind. intros [Ho Hw] Hk.
  destruct (m s) as [o s1], (m s') as [o' s1']. simpl in Ho, Hw. subst o'.
  destruct o as [a|e].
  - apply Hk, Hw.
  - split; [reflexivity | exact Hw].
Qed.

Lemma alike_try_except (A : Type) (body : M E A) (handler : exn -> M E A)
  (s s' : state E) :
  alike R (body s) (body s') ->
  (forall e s1 s1', R (outside s1) (outside s1') ->
                    alike R (handler e s1) (handler e s1')) ->
  alike R (try_except body handler s) (try_except body handler s').
Proof.
  unfold try_except. intros [Ho Hw] Hk.
  destruct (body s) as [o s1], (body s') as [o' s1']. simpl in Ho, Hw. subst o'.
  destruct o as [a|e].
  - split; [reflexivity | exact Hw].
  - apply Hk, Hw.
Qed.

Lemma describe_is_metadata (t : str) : metadata_statement (lit "DESCRIBE " ++ t).
Proof. right. exists t. reflexivity. Qed.

Lemma alike_describe_tables (cur : cursor E) (tables : list tuple) :
  forall schema_info (s s' : state E),
    R (outside s) (outside s') ->
    alike R (describe_tables cur tables schema_info s)
            (describe_tables cur tables schema_info s').
Proof.
  induction tables as [|table rest IH]; intros schema_info s s' H;
    cbn [describe_tables].
  - apply alike_ret, H.
  - apply alike_bind.
    + apply alike_call, (same_execute same), H. apply describe_is_metadata.
    + intros _ s1 s1' H1. apply alike_bind.
      * apply alike_call, (same_fetchall same), H1.
      * intros fetched s2 s2' H2. apply alike_bind.
        -- apply alike_lift, H2.
        -- intros joined s3 s3' H3. apply IH, H3.
Qed.

(** Schema inspection answers alike in worlds that hold the same database. *)
Lemma alike_get_schema_info (s s' : state E) :
  R (outside s) (outside s') -> alike R (get_schema_info s) (get_schema_info s').
Proof.
  intros H. unfold get_schema_info, get_schema_info_try.
  apply alike_try_except; [|intros e s1 s1' H1; apply alike_ret, H1].
  apply alike_bind; [apply alike_call, (same_cursor same), H|].
  intros cur s1 s1' H1.
  apply alike_bind;
    [apply alike_call, (same_execute same), H1; left; reflexivity|].
  intros _ s2 s2' H2.
  apply alike_bind; [apply alike_call, (same_fetchall same), H2|].
  intros tables s3 s3' H3.
  apply alike_bind; [apply alike_describe_tables, H3|].
  intros schema_info s4 s4' H4.
  apply alike_bind; [apply alike_call, (same_close same), H4|].
  intros _ s5 s5' H5. apply alike_ret, H5.
Qed.

End Unchanged.

(** C8.  Two consecutive calls of [get_schema_info] return the same string
    when the first call leaves a world that holds the same database as
    before: one in which every metadata call answers as it did. *)
Theorem get_schema_info_idempotent (E : Env) (R : world E -> world E -> Prop)
  (s : state E) :
  same_database E R ->
  R (outside s) (outside (snd (get_schema_info s))) ->
  fst (get_schema_info (snd (get_schema_info s))) = fst (get_schema_info s).
Proof.
  intros same H.
  destruct (alike_get_schema_info same _ _ H) as [Ho _].
  symmetry. exact Ho.
Qed.

Lemma get_schema_info_idempotent_witness :
  fst (get_schema_info (snd (get_schema_info (Demo.session (Raise (Exception []))))))
  = fst (get_schema_info (Demo.session (Raise (Exception [])))).
Proof.
  apply (@get_schema_info_idempotent Demo.env eq).
  - split; intros; subst; split; reflexivity.
  - reflexivity.
Defined.

(** * Further properties of the script *)

(** ** Every way a question can end *)

Section Outcomes.

Variable E : Env.

Lemma get_schema_info_returns (s : state E) :
  exists text s', get_schema_info s = (Return text, s').
Proof.
  unfold get_schema_info, try_except.
  destruct (get_schema_info_try s) as [[text|e] s'].
  - exists text, s'. reflexivity.
  - exists (str_of_exn e), s'. reflexivity.
Qed.

Lemma execute_query_returns (query : str) (s : state E) :
  exists result columns s', execute_query query s = (Return (result, columns), s').
Proof.
  destruct (execute_query_cases query s) as [(r & s' & _ & H) | (e & s' & _ & H)].
  - destruct r as [result columns]. exists result, columns, s'. exact H.
  - exists (PyStr (str_of_exn e)), [], s'. exact H.
Qed.

(** Step 5 either fails in [pd.DataFrame] before it has shown anything, or
    fails in [st.dataframe] once the message is appended and drawn, or
    appends one assistant message and draws it. *)
Lemma show_answer_cases (sql_query : str) (result : pyval) (columns : list cell)
  (s : state E) :
  (exists e rows,
     result = PyList rows /\ rows <> [] /\
     pd_DataFrame E rows columns = Raise e /\
     show_answer sql_query result columns s = (Raise e, s)) \/
  (exists e rows df,
     result = PyList rows /\ rows <> [] /\
     pd_DataFrame E rows columns = Return df /\
     streamlit_dataframe E df = Raise e /\
     show_answer sql_query result columns s =
       (Raise e, {| chat_history := chat_history s ++ [AIMessage (results_text sql_query)];
                    screen := screen s ++
                              [st_markdown (lit "assistant") (results_text sql_query)];
                    outside := outside s |})) \/
  (exists text w tail,
     show_answer sql_query result columns s =
       (Return tt, {| chat_history := chat_history s ++ [AIMessage text];
                      screen := screen s ++ w :: tail;
                      outside := outside s |}) /\
     (w = st_error (lit "assistant") text \/ w = st_markdown (lit "assistant") text) /\
     (tail = [] \/ exists df, tail = [st_dataframe (lit "assistant") df])).
Proof.
  destruct result as [message|rows]; cbn [show_answer].
  - right. right. exists (error_text sql_query message), (st_error (lit "assistant")
             (error_text sql_query message)), [].
    split; [reflexivity|]. split; [left; reflexivity | left; reflexivity].
  - destruct rows as [|r rows]; cbn [List.length Nat.ltb Nat.leb].
    + right. right. exists (no_results_text sql_query),
        (st_markdown (lit "assistant") (no_results_text sql_query)), [].
      split; [reflexivity|]. split; [right; reflexivity | left; reflexivity].
    + destruct (pd_DataFrame E (r :: rows) columns) as [df|e] eqn:Hdf.
      * destruct (streamlit_dataframe E df) as [[]|e] eqn:Hshow.
        -- right. right. exists (results_text sql_query),
             (st_markdown (lit "assistant") (results_text sql_query)),
             [st_dataframe (lit "assistant") df].
           split; [|split; [right; reflexivity | right; exists df; reflexivity]].
           unfold bind, lift, append_history, draw. rewrite Hshow.
           cbn [chat_history screen outside]. rewrite <- app_assoc. reflexivity.
        -- right. left. exists e, (r :: rows), df.
           split; [reflexivity|]. split; [discriminate|].
           split; [exact Hdf|]. split; [exact Hshow|].
           unfold bind, lift, append_history, draw. rewrite Hshow. reflexivity.
      * left. exists e, (r :: rows).
        split; [reflexivity|]. split; [discriminate|]. split; [exact Hdf|].
        reflexivity.
Qed.

(** Steps 2 to 4: schema inspection always returns; then the model raises,
    or it answers and execution always returns. *)
Lemma answer_cases (user_query : str) (s : state E) :
  exists schema_info s1,
    get_schema_info s = (Return schema_info, s1) /\
    chat_history s1 = chat_history s /\ screen s1 = screen s /\
    ((exists e w,
        llm E (format_messages schema_info user_query) (outside s1) = (Raise e, w) /\
        answer user_query s = (Raise e, set_outside s1 w)) \/
     (exists response w result columns s3,
        llm E (format_messages schema_info user_query) (outside s1)
        = (Return response, w) /\
        execute_query (strip_chars (lit "`") (strip response)) (set_outside s1 w)
        = (Return (result, columns), s3) /\
        chat_history s3 = chat_history s /\ screen s3 = screen s /\
        answer user_query s =
          show_answer (strip_chars (lit "`") (strip response)) result columns s3)).
Proof.
  destruct (get_schema_info_returns s) as (schema_info & s1 & H1).
  destruct (@quiet_run _ _ _ _ _ _ (@quiet_get_schema_info E) H1) as [Qh1 Qs1].
  exists schema_info, s1. repeat (split; [assumption|]).
  unfold answer. rewrite (bind_return _ _ _ H1).
  destruct (llm E (format_messages schema_info user_query) (outside s1))
    as [[response|e] w] eqn:Hl.
  - right.
    pose proof (generate_sql_run _ _ _ Hl) as H2. cbn beta iota in H2.
    destruct (execute_query_returns (strip_chars (lit "`") (strip response))
                (set_outside s1 w)) as (result & columns & s3 & H3).
    destruct (@quiet_run _ _ _ _ _ _
                (@quiet_execute_query E (strip_chars (lit "`") (strip response))) H3)
      as [Qh3 Qs3].
    exists response, w, result, columns, s3.
    split; [reflexivity|]. split; [exact H3|].
    split; [rewrite Qh3; exact Qh1|]. split; [rewrite Qs3; exact Qs1|].
    rewrite (bind_return _ _ _ H2), (bind_return _ _ _ H3). reflexivity.
  - left. exists e, w. split; [reflexivity|].
    apply bind_raise. rewrite (generate_sql_run _ _ _ Hl). reflexivity.
Qed.

End Outcomes.

(** X1.  An empty question does nothing at all.  Any other question adds
    the user's message and at most one assistant message, and never changes
    an earlier entry: when the handler returns, exactly one assistant
    message follows the user's; when it ends in an exception, the user's
    message stands alone, or is followed by the ["**Results**:"] message
    that was appended before [st.dataframe] raised. *)
Theorem transcript_gains_one_exchange (E : Env) (user_query : str) (s : state E) :
  (user_query = [] /\ on_user_query user_query s = (Return tt, s)) \/
  (user_query <> [] /\
   ((exists e,
       fst (on_user_query user_query s) = Raise e /\
       (chat_history (snd (on_user_query user_query s))
        = chat_history s ++ [HumanMessage user_query] \/
        exists sql_query,
          chat_history (snd (on_user_query user_query s))
          = chat_history s ++
            [HumanMessage user_query;
             AIMessage (lit "**Generated SQL**: `" ++ sql_query ++ lit "`" ++ nl ++ nl ++
                        lit "**Results**:")])) \/
    (fst (on_user_query user_query s) = Return tt /\
     exists text,
       chat_history (snd (on_user_query user_query s))
       = chat_history s ++ [HumanMessage user_query; AIMessage text]))).
Proof.
  destruct user_query as [|c q]; [left; split; reflexivity|].
  right. split; [discriminate|].
  set (user_query := c :: q).
  rewrite (@on_user_query_asked E user_query s) by discriminate.
  destruct (answer_cases user_query (asked user_query s))
    as (schema_info & s1 & H1 & Qh1 & Qs1 &
        [(e & w & Hl & Ha) | (response & w & result & columns & s3 & Hl & H3 & Qh3 & Qs3 & Ha)]).
  - left. exists e. rewrite Ha. split; [reflexivity|]. left. exact Qh1.
  - rewrite Ha.
    destruct (show_answer_cases (strip_chars (lit "`") (strip response)) result columns s3)
      as [(e & rows & _ & _ & _ & Hs)
         | [(e & rows & df & _ & _ & _ & _ & Hs) | (text & wd & tail & Hs & _ & _)]];
      rewrite Hs.
    + left. exists e. split; [reflexivity|]. left. exact Qh3.
    + left. exists e. split; [reflexivity|]. right.
      exists (strip_chars (lit "`") (strip response)).
      cbn [snd chat_history]. rewrite Qh3. cbn [asked chat_history].
      rewrite <- app_assoc. reflexivity.
    + right. split; [reflexivity|]. exists text.
      cbn [snd chat_history]. rewrite Qh3. cbn [asked chat_history].
      rewrite <- app_assoc. reflexivity.
Qed.

(** X2.  An exception that leaves the handler was raised by the chat
    model, or, after the model answered and the cleaned SQL was executed
    with at least one row fetched, by [pd.DataFrame] on those rows and
    columns or by [st.dataframe] on the frame built from them.  No error of
    the database connector ever leaves the handler. *)
Theorem handler_raises_only_from_model_or_frame (E : Env) (user_query : str)
  (s : state E) (e : exn) :
  fst (on_user_query user_query s) = Raise e ->
  exists schema_info s1,
    get_schema_info (asked user_query s) = (Return schema_info, s1) /\
    ((exists w,
        llm E (format_messages schema_info user_query) (outside s1) = (Raise e, w)) \/
     (exists response w rows columns s3,
        llm E (format_messages schema_info user_query) (outside s1)
        = (Return response, w) /\
        execute_query (strip_chars (lit "`") (strip response)) (set_outside s1 w)
        = (Return (PyList rows, columns), s3) /\
        rows <> [] /\
        (pd_DataFrame E rows columns = Raise e \/
         exists df, pd_DataFrame E rows columns = Return df /\
                    streamlit_dataframe E df = Raise e))).
Proof.
  destruct user_query as [|c q]; [discriminate|].
  set (user_query := c :: q).
  rewrite (@on_user_query_asked E user_query s) by discriminate.
  destruct (answer_cases user_query (asked user_query s))
    as (schema_info & s1 & H1 & Qh1 & Qs1 &
        [(e' & w & Hl & Ha) | (response & w & result & columns & s3 & Hl & H3 & Qh3 & Qs3 & Ha)]);
    rewrite Ha; intros He; exists schema_info, s1; (split; [exact H1|]).
  - injection He as ->. left. exists w. exact Hl.
  - right.
    destruct (show_answer_cases (strip_chars (lit "`") (strip response)) result columns s3)
      as [(e' & rows & Hr & Hne & Hdf & Hs)
         | [(e' & rows & df & Hr & Hne & Hdf & Hshow & Hs) | (text & wd & tail & Hs & _ & _)]];
      rewrite Hs in He.
    + injection He as ->. subst result. exists response, w, rows, columns, s3.
      repeat (split; [assumption|]). left. exact Hdf.
    + injection He as ->. subst result. exists response, w, rows, columns, s3.
      repeat (split; [assumption|]). right. exists df. split; assumption.
    + discriminate He.
Qed.

Lemma handler_raises_only_from_model_or_frame_witness :
  exists schema_info s1 w,
    get_schema_info (asked Demo.question
                       (Demo.session (Raise (Exception (lit "Connection error.")))))
    = (Return schema_info, s1) /\
    llm Demo.env (format_messages schema_info Demo.question) (outside s1)
    = (Raise (Exception (lit "Connection error.")), w).
Proof.
  destruct (@handler_raises_only_from_model_or_frame Demo.env Demo.question
              (Demo.session (Raise (Exception (lit "Connection error."))))
              (Exception (lit "Connection error.")) eq_refl)
    as (schema_info & s1 & H1 & [(w & Hl) | (response & w & rows & columns & s3 & Hl & _)]).
  - exists schema_info, s1, w. split; assumption.
  - exfalso. injection H1 as <- <-. vm_compute in Hl. discriminate Hl.
Defined.

(** X3.  Whenever the handler returns on a question, the assistant message
    it appended is also on the screen, right after the user's question:
    drawn by [st.error] or [st.markdown] with the same text, and followed
    by at most one data frame. *)
Theorem answer_is_drawn (E : Env) (user_query : str) (s : state E) :
  user_query <> [] ->
  fst (on_user_query user_query s) = Return tt ->
  exists text w tail,
    chat_history (snd (on_user_query user_query s))
    = chat_history s ++ [HumanMessage user_query; AIMessage text] /\
    screen (snd (on_user_query user_query s))
    = screen s ++ st_markdown (lit "user") user_query :: w :: tail /\
    (w = st_error (lit "assistant") text \/ w = st_markdown (lit "assistant") text) /\
    (tail = [] \/ exists df, tail = [st_dataframe (lit "assistant") df]).
Proof.
  intros Hq. rewrite (on_user_query_asked _ Hq).
  destruct (answer_cases user_query (asked user_query s))
    as (schema_info & s1 & H1 & Qh1 & Qs1 &
        [(e & w & Hl & Ha) | (response & w & result & columns & s3 & Hl & H3 & Qh3 & Qs3 & Ha)]);
    rewrite Ha; [discriminate|].
  destruct (show_answer_cases (strip_chars (lit "`") (strip response)) result columns s3)
    as [(e & rows & _ & _ & _ & Hs)
       | [(e & rows & df & _ & _ & _ & _ & Hs) | (text & wd & tail & Hs & Hw & Htail)]];
    rewrite Hs; [discriminate | discriminate |].
  intros _. exists text, wd, tail.
  cbn [snd chat_history screen]. rewrite Qh3, Qs3. cbn [asked chat_history screen].
  rewrite <- !app_assoc. repeat split; assumption.
Qed.

Lemma answer_is_drawn_witness :
  exists text w tail,
    chat_history (snd (on_user_query Demo.question
                         (Demo.session (Return (lit "`SELECT COUNT(*) FROM users;`")))))
    = initial_chat_history ++ [HumanMessage Demo.question; AIMessage text] /\
    screen (snd (on_user_query Demo.question
                   (Demo.session (Return (lit "`SELECT COUNT(*) FROM users;`")))))
    = [] ++ st_markdown (lit "user") Demo.question :: w :: tail.
Proof.
  assert (Hq : Demo.question <> []) by (vm_compute; discriminate).
  destruct (@answer_is_drawn Demo.env Demo.question
              (Demo.session (Return (lit "`SELECT COUNT(*) FROM users;`"))) Hq eq_refl)
    as (text & w & tail & Hh & Hs & _).
  exists text, w, tail. split; [exact Hh | exact Hs].
Defined.

(** ** Reporting rows *)

(** X4.  When execution returns at least one row, [pd.DataFrame] accepts
    the rows and [st.dataframe] accepts the frame, the handler appends one
    assistant message with text
    ["**Generated SQL**: `<sql>`\n\n**Results**:"], draws that text and then
    the data frame built from the rows and the column list. *)
Theorem rows_are_reported (E : Env) (user_query schema_info sql_query : str)
  (rows : list tuple) (columns : list cell) (df : frame E) (s s1 s2 s3 : state E) :
  user_query <> [] ->
  get_schema_info (asked user_query s) = (Return schema_info, s1) ->
  generate_sql schema_info user_query s1 = (Return sql_query, s2) ->
  execute_query sql_query s2 = (Return (PyList rows, columns), s3) ->
  rows <> [] ->
  pd_DataFrame E rows columns = Return df ->
  streamlit_dataframe E df = Return tt ->
  let text := lit "**Generated SQL**: `" ++ sql_query ++ lit "`" ++ nl ++ nl ++
              lit "**Results**:" in
  fst (on_user_query user_query s) = Return tt /\
  chat_history (snd (on_user_query user_query s))
  = chat_history s ++ [HumanMessage user_query; AIMessage text] /\
  screen (snd (on_user_query user_query s))
  = screen s ++ [st_markdown (lit "user") user_query;
                 st_markdown (lit "assistant") text;
                 st_dataframe (lit "assistant") df] /\
  endswith (lit "**Results**:") text = true.
Proof.
  intros Hq H1 H2 H3 Hrows Hdf Hshow text.
  assert (Hend : endswith (lit "**Results**:") text = true).
  { unfold text. rewrite 4 app_assoc. apply endswith_app. }
  destruct (@quiet_run _ _ _ _ _ _ (@quiet_get_schema_info E) H1) as [Qh1 Qs1].
  destruct (@quiet_run _ _ _ _ _ _ (@quiet_generate_sql E schema_info user_query) H2)
    as [Qh2 Qs2].
  destruct (@quiet_run _ _ _ _ _ _ (@quiet_execute_query E sql_query) H3) as [Qh3 Qs3].
  rewrite (on_user_query_asked _ Hq). unfold answer.
  rewrite (bind_return _ _ _ H1), (bind_return _ _ _ H2), (bind_return _ _ _ H3).
  destruct rows as [|r rows]; [congruence|].
  cbn [show_answer List.length Nat.ltb Nat.leb].
  unfold bind, lift, append_history, draw. rewrite Hdf, Hshow.
  cbn [fst snd chat_history screen outside].
  rewrite Qh3, Qh2, Qh1, Qs3, Qs2, Qs1. cbn [asked chat_history screen].
  rewrite <- !app_assoc. repeat split. exact Hend.
Qed.

Lemma rows_are_reported_witness :
  screen (snd (on_user_query Demo.question
                 (Demo.session (Return (lit "`SELECT COUNT(*) FROM users;`")))))
  = [] ++ [st_markdown (lit "user") Demo.question;
           st_markdown (lit "assistant")
             (lit "**Generated SQL**: `SELECT COUNT(*) FROM users;`" ++ nl ++ nl ++
              lit "**Results**:");
           st_dataframe (lit "assistant")
             ([{| item0 := Demo.int "2"; items := [] |}], [CStr (lit "COUNT(*)")])].
Proof.
  assert (Hq : Demo.question <> []) by (vm_compute; discriminate).
  assert (Hrows : [{| item0 := Demo.int "2"; items := [] |}] <> []) by discriminate.
  destruct (@rows_are_reported Demo.env Demo.question
              (lit "Tables: users (id, name)") (lit "SELECT COUNT(*) FROM users;")
              [{| item0 := Demo.int "2"; items := [] |}] [CStr (lit "COUNT(*)")]
              ([{| item0 := Demo.int "2"; items := [] |}], [CStr (lit "COUNT(*)")])
              (Demo.session (Return (lit "`SELECT COUNT(*) FROM users;`"))) _ _ _
              Hq eq_refl eq_refl eq_refl Hrows eq_refl eq_refl) as (_ & _ & Hs & _).
  exact Hs.
Defined.

(** X5.  When execution returns at least one row and [pd.DataFrame] raises,
    the exception leaves the handler after the query has run: the transcript
    has gained the user's message only and nothing is drawn for the
    assistant. *)
Theorem frame_error_escapes (E : Env) (user_query schema_info sql_query : str)
  (rows : list tuple) (columns : list cell) (e : exn) (s s1 s2 s3 : state E) :
  user_query <> [] ->
  get_schema_info (asked user_query s) = (Return schema_info, s1) ->
  generate_sql schema_info user_query s1 = (Return sql_query, s2) ->
  execute_query sql_query s2 = (Return (PyList rows, columns), s3) ->
  rows <> [] ->
  pd_DataFrame E rows columns = Raise e ->
  fst (on_user_query user_query s) = Raise e /\
  chat_history (snd (on_user_query user_query s))
  = chat_history s ++ [HumanMessage user_query] /\
  screen (snd (on_user_query user_query s))
  = screen s ++ [st_markdown (lit "user") user_query] /\
  outside (snd (on_user_query user_query s)) = outside s3.
Proof.
  intros Hq H1 H2 H3 Hrows Hdf.
  destruct (@quiet_run _ _ _ _ _ _ (@quiet_get_schema_info E) H1) as [Qh1 Qs1].
  destruct (@quiet_run _ _ _ _ _ _ (@quiet_generate_sql E schema_info user_query) H2)
    as [Qh2 Qs2].
  destruct (@quiet_run _ _ _ _ _ _ (@quiet_execute_query E sql_query) H3) as [Qh3 Qs3].
  rewrite (on_user_query_asked _ Hq). unfold answer.
  rewrite (bind_return _ _ _ H1), (bind_return _ _ _ H2), (bind_return _ _ _ H3).
  destruct rows as [|r rows]; [congruence|].
  cbn [show_answer List.length Nat.ltb Nat.leb].
  unfold bind, lift. rewrite Hdf. cbn [fst snd].
  rewrite Qh3, Qh2, Qh1, Qs3, Qs2, Qs1. repeat split.
Qed.

Lemma frame_error_escapes_witness :
  fst (on_user_query Demo.question
         (Fixtures.session_bad_frame (Return (lit "`SELECT COUNT(*) FROM users;`"))))
  = Raise (Exception (lit "2 columns passed, passed data had 1 columns")) /\
  chat_history (snd (on_user_query Demo.question
         (Fixtures.session_bad_frame (Return (lit "`SELECT COUNT(*) FROM users;`")))))
  = initial_chat_history ++ [HumanMessage Demo.question].
Proof.
  assert (Hq : Demo.question <> []) by (vm_compute; discriminate).
  assert (Hrows : [{| item0 := Demo.int "2"; items := [] |}] <> []) by discriminate.
  destruct (@frame_error_escapes Fixtures.env_bad_frame Demo.question
              (lit "Tables: users (id, name)") (lit "SELECT COUNT(*) FROM users;")
              [{| item0 := Demo.int "2"; items := [] |}] [CStr (lit "COUNT(*)")]
              (Exception (lit "2 columns passed, passed data had 1 columns"))
              (Fixtures.session_bad_frame (Return (lit "`SELECT COUNT(*) FROM users;`")))
              _ _ _ Hq eq_refl eq_refl eq_refl Hrows eq_refl) as (Hr & Hh & _).
  split; [exact Hr | exact Hh].
Defined.

(** ** Who writes to the transcript *)


(** ** What cleaning the model's answer changes *)

Section StripSplit.

Variable p : char -> bool.

Lemma lstrip_by_split (s : str) :
  exists pre, s = pre ++ lstrip_by p s /\ forallb p pre = true.
Proof.
  induction s as [|c s (pre & Hs & Hp)]; [exists []; split; reflexivity|].
  simpl. destruct (p c) eqn:Hc.
  - exists (c :: pre). split; [simpl; f_equal; exact Hs | simpl; rewrite Hc; exact Hp].
  - exists []. split; reflexivity.
Qed.

Lemma forallb_rev (l : str) : forallb p l = true -> forallb p (rev l) = true.
Proof.
  rewrite !forallb_forall. intros H x Hx. apply H, in_rev, Hx.
Qed.

Lemma rstrip_by_split (s : str) :
  exists suf, s = rstrip_by p s ++ suf /\ forallb p suf = true.
Proof.
  destruct (lstrip_by_split (rev s)) as (pre & Hs & Hp).
  exists (rev pre). split; [|apply forallb_rev, Hp].
  unfold rstrip_by. rewrite <- rev_app_distr, <- Hs. symmetry. apply rev_involutive.
Qed.

Lemma strip_by_split (s : str) :
  exists pre suf,
    s = pre ++ strip_by p s ++ suf /\ forallb p pre = true /\ forallb p suf = true.
Proof.
  destruct (lstrip_by_split s) as (pre & Hs & Hp).
  destruct (rstrip_by_split (lstrip_by p s)) as (suf & Hs' & Hp').
  exists pre, suf. split; [|split; assumption].
  unfold strip_by. rewrite <- Hs'. exact Hs.
Qed.

(** A matching last character goes with the right scan. *)
Lemma rstrip_by_drops_last (s : str) (c : char) :
  p c = true -> rstrip_by p (s ++ [c]) = rstrip_by p s.
Proof.
  intros Hc. unfold rstrip_by. rewrite rev_app_distr. simpl. rewrite Hc. reflexivity.
Qed.

Lemma strip_by_id (s : str) :
  leading p s = false -> trailing p s = false -> strip_by p s = s.
Proof.
  intros Hl Ht. unfold strip_by. rewrite (lstrip_by_id _ _ Hl). apply rstrip_by_id, Ht.
Qed.

End StripSplit.

Lemma forallb_weaken (p q : char -> bool) (l : str) :
  (forall c, p c = true -> q c = true) -> forallb p l = true -> forallb q l = true.
Proof.
  intros Hpq. rewrite !forallb_forall. intros H x Hx. apply Hpq, H, Hx.
Qed.

(** X7.  Cleaning only trims: the SQL [generate_sql] returns is the model's
    answer with a run of whitespace and backticks removed at each end, and
    nothing inside it is changed. *)
Theorem cleaning_trims_ends_only (E : Env) (schema_info query : str)
  (s : state E) (response : str) (w : world E) :
  llm E (format_messages schema_info query) (outside s) = (Return response, w) ->
  exists sql_query pre suf,
    generate_sql schema_info query s = (Return sql_query, set_outside s w) /\
    response = pre ++ sql_query ++ suf /\
    forallb (fun c => isspace c || among (lit "`") c) pre = true /\
    forallb (fun c => isspace c || among (lit "`") c) suf = true.
Proof.
  intros H.
  destruct (strip_by_split isspace response) as (pre1 & suf1 & H1 & Hp1 & Hs1).
  destruct (strip_by_split (among (lit "`")) (strip_by isspace response))
    as (pre2 & suf2 & H2 & Hp2 & Hs2).
  exists (strip_chars (lit "`") (strip response)), (pre1 ++ pre2), (suf2 ++ suf1).
  split; [exact (generate_sql_run _ _ _ H)|].
  unfold strip_chars, strip. split; [|split].
  - rewrite H1 at 1. rewrite H2 at 1. rewrite <- !app_assoc. reflexivity.
  - rewrite forallb_app. apply andb_true_intro. split.
    + apply (forallb_weaken isspace); [intros c ->; reflexivity | exact Hp1].
    + apply (forallb_weaken (among (lit "`")));
        [intros c ->; apply orb_true_r | exact Hp2].
  - rewrite forallb_app. apply andb_true_intro. split.
    + apply (forallb_weaken (among (lit "`")));
        [intros c ->; apply orb_true_r | exact Hs2].
    + apply (forallb_weaken isspace); [intros c ->; reflexivity | exact Hs1].
Qed.

Lemma cleaning_trims_ends_only_witness :
  exists sql_query pre suf,
    generate_sql [] Demo.question (Demo.session (Return Demo.fenced_reply))
    = (Return sql_query,
       set_outside (Demo.session (Return Demo.fenced_reply))
                   (outside (Demo.session (Return Demo.fenced_reply)))) /\
    Demo.fenced_reply = pre ++ sql_query ++ suf.
Proof.
  destruct (@cleaning_trims_ends_only Demo.env [] Demo.question
              (Demo.session (Return Demo.fenced_reply)) Demo.fenced_reply
              (outside (Demo.session (Return Demo.fenced_reply))) eq_refl)
    as (sql_query & pre & suf & Hrun & Hsplit & _).
  exists sql_query, pre, suf. split; [exact Hrun | exact Hsplit].
Defined.

(** X8.  An answer that neither starts nor ends with whitespace or a
    backtick is returned as it is. *)
Theorem clean_answer_is_unchanged (E : Env) (schema_info query : str)
  (s : state E) (response : str) (w : world E) :
  llm E (format_messages schema_info query) (outside s) = (Return response, w) ->
  leading isspace response = false ->
  trailing isspace response = false ->
  leading (among (lit "`")) response = false ->
  trailing (among (lit "`")) response = false ->
  generate_sql schema_info query s = (Return response, set_outside s w).
Proof.
  intros H Hl Ht Hbl Hbt.
  rewrite (generate_sql_run _ _ _ H). unfold strip_chars, strip.
  rewrite (strip_by_id _ _ Hl Ht), (strip_by_id _ _ Hbl Hbt). reflexivity.
Qed.

Lemma clean_answer_is_unchanged_witness :
  generate_sql [] Demo.question (Demo.session (Return (lit "SELECT * FROM `users` LIMIT 5;")))
  = (Return (lit "SELECT * FROM `users` LIMIT 5;"),
     set_outside (Demo.session (Return (lit "SELECT * FROM `users` LIMIT 5;")))
       (outside (Demo.session (Return (lit "SELECT * FROM `users` LIMIT 5;"))))).
Proof.
  exact (@clean_answer_is_unchanged Demo.env [] Demo.question
           (Demo.session (Return (lit "SELECT * FROM `users` LIMIT 5;")))
           (lit "SELECT * FROM `users` LIMIT 5;")
           (outside (Demo.session (Return (lit "SELECT * FROM `users` LIMIT 5;"))))
           eq_refl eq_refl eq_refl eq_refl eq_refl).
Defined.

(** X9.  Cleaning cannot tell a fence from SQL: when the answer is a
    statement (one that starts with neither whitespace nor a backtick and
    does not end with a backtick) followed by one closing backtick, as when
    it ends in a quoted identifier, [generate_sql] returns it without that
    backtick. *)
Theorem closing_backtick_is_lost (E : Env) (schema_info query : str)
  (s : state E) (body : str) (w : world E) :
  llm E (format_messages schema_info query) (outside s) = (Return (body ++ lit "`"), w) ->
  body <> [] ->
  leading isspace body = false ->
  leading (among (lit "`")) body = false ->
  trailing (among (lit "`")) body = false ->
  generate_sql schema_info query s = (Return body, set_outside s w).
Proof.
  intros H Hne Hl Hbl Hbt.
  rewrite (generate_sql_run _ _ _ H). unfold strip_chars, strip.
  destruct body as [|c body]; [congruence|].
  assert (Hws : strip_by isspace ((c :: body) ++ lit "`") = (c :: body) ++ lit "`").
  { apply strip_by_id; [exact Hl|]. apply trailing_snoc. }
  rewrite Hws. unfold strip_by.
  rewrite (lstrip_by_id (among (lit "`")) ((c :: body) ++ lit "`") Hbl).
  change (lit "`") with [96%N] in *.
  rewrite rstrip_by_drops_last by reflexivity.
  rewrite (rstrip_by_id _ _ Hbt). reflexivity.
Qed.

Lemma closing_backtick_is_lost_witness :
  generate_sql [] Demo.question (Demo.session (Return (lit "SELECT * FROM `users`")))
  = (Return (lit "SELECT * FROM `users"),
     set_outside (Demo.session (Return (lit "SELECT * FROM `users`")))
       (outside (Demo.session (Return (lit "SELECT * FROM `users`"))))).
Proof.
  assert (Hne : lit "SELECT * FROM `users" <> []) by (vm_compute; discriminate).
  exact (@closing_backtick_is_lost Demo.env [] Demo.question
           (Demo.session (Return (lit "SELECT * FROM `users`")))
           (lit "SELECT * FROM `users")
           (outside (Demo.session (Return (lit "SELECT * FROM `users`"))))
           eq_refl Hne eq_refl eq_refl eq_refl).
Defined.

(** ** More on schema inspection *)

(** X10.  On a database without tables [get_schema_info] sends no
    [DESCRIBE]: after [SHOW TABLES] it closes the cursor and returns
    ["Tables: "], the prefix alone. *)
Theorem empty_database_schema (E : Env) (s : state E) (cur : cursor E)
  (w1 w2 w3 w4 : world E) :
  db_cursor E (outside s) = (Return cur, w1) ->
  cursor_execute E cur (lit "SHOW TABLES") w1 = (Return tt, w2) ->
  cursor_fetchall E cur w2 = (Return [], w3) ->
  cursor_close E cur w3 = (Return tt, w4) ->
  get_schema_info s = (Return (lit "Tables: "), set_outside s w4).
Proof.
  intros Hc He Hf Hx.
  assert (H : catalog_reported E [] (outside s) w4).
  { exists cur, [], w1, w2, w3, w3.
    repeat (split; [first [assumption | reflexivity]|]).
    split; [apply columns_reported_nil | exact Hx]. }
  rewrite (@get_schema_info_reported _ _ _ _ H). reflexivity.
Qed.

Lemma empty_database_schema_witness :
  fst (get_schema_info (Fixtures.session_empty (Raise (Exception []))))
  = Return (lit "Tables: ").
Proof.
  rewrite (@empty_database_schema Fixtures.env_empty
             (Fixtures.session_empty (Raise (Exception []))) tt _ _ _ _
             eq_refl eq_refl eq_refl eq_refl).
  reflexivity.
Defined.

Lemma get_schema_info_try_prefix (E : Env) (s s' : state E) (text : str) :
  get_schema_info_try s = (Return text, s') -> startswith (lit "Tables: ") text = true.
Proof.
  unfold get_schema_info_try, bind, ret.
  destruct (call (db_cursor E) s) as [[cur|e] s1]; [|discriminate].
  destruct (call (cursor_execute E cur (lit "SHOW TABLES")) s1) as [[[]|e] s2];
    [|discriminate].
  destruct (call (cursor_fetchall E cur) s2) as [[tables|e] s3]; [|discriminate].
  destruct (describe_tables cur tables [] s3) as [[schema_info|e] s4]; [|discriminate].
  destruct (call (cursor_close E cur) s4) as [[[]|e] s5]; [|discriminate].
  intros H. injection H as <- _.
  exact (startswith_app (lit "Tables: ") (join (lit ", ") schema_info)).
Qed.

(** X11.  A string from [get_schema_info] that does not start with
    ["Tables: "] is never a schema: it is the text of the exception that
    ended the [try] block. *)
Theorem schema_without_prefix_is_error (E : Env) (s s' : state E) (text : str) :
  get_schema_info s = (Return text, s') ->
  startswith (lit "Tables: ") text = false ->
  exists e, get_schema_info_try s = (Raise e, s') /\ text = str_of_exn e.
Proof.
  unfold get_schema_info, try_except.
  destruct (get_schema_info_try s) as [[text0|e] s0] eqn:Ht.
  - intros H Hp. injection H as -> ->.
    rewrite (get_schema_info_try_prefix _ Ht) in Hp. discriminate Hp.
  - intros H _. injection H as <- <-. exists e. split; reflexivity.
Qed.

Lemma schema_without_prefix_is_error_witness :
  exists e,
    get_schema_info_try (Demo.session_down (Raise (Exception [])))
    = (Raise e, Demo.session_down (Raise (Exception []))) /\
    lit "MySQL Connection not available." = str_of_exn e.
Proof.
  exact (@schema_without_prefix_is_error Demo.env
           (Demo.session_down (Raise (Exception [])))
           (Demo.session_down (Raise (Exception [])))
           (lit "MySQL Connection not available.") eq_refl eq_refl).
Defined.

(** ** Substrings of the schema text *)

Lemma startswith_app_l (x a b : str) :
  startswith x a = true -> startswith x (a ++ b) = true.
Proof.
  revert a. induction x as [|c x IH]; intros a; [reflexivity|].
  destruct a as [|d a]; simpl; [discriminate|].
  destruct (N.eqb c d); [apply IH | discriminate].
Qed.

Lemma contains_app_l (x a b : str) : contains x a = true -> contains x (a ++ b) = true.
Proof.
  induction a as [|d a IH]; simpl.
  - rewrite orb_false_r. intros H. apply contains_here.
    apply (startswith_app_l _ [] b H).
  - intros H. apply orb_true_iff in H. destruct H as [H|H].
    + pose proof (startswith_app_l _ (d :: a) b H) as H'. simpl in H'.
      rewrite H'. reflexivity.
    + rewrite (IH H). apply orb_true_r.
Qed.

Lemma contains_app_r (x a b : str) : contains x b = true -> contains x (a ++ b) = true.
Proof.
  intros H. induction a as [|d a IH]; simpl; [exact H|].
  rewrite IH. apply orb_true_r.
Qed.

Lemma contains_join (x sep : str) (l : list str) :
  (exists y, In y l /\ contains x y = true) -> contains x (join sep l) = true.
Proof.
  induction l as [|a l IH]; intros (y & Hin & Hc); [destruct Hin|].
  destruct Hin as [<-|Hin].
  - destruct l; simpl; [exact Hc | apply contains_app_l, Hc].
  - destruct l as [|b l]; [destruct Hin|].
    change (join sep (a :: b :: l)) with (a ++ sep ++ join sep (b :: l)).
    apply contains_app_r, contains_app_r, IH. exists y. split; assumption.
Qed.

(** X12.  Nothing the database reports is dropped: when the metadata calls
    succeed, every reported table name and every reported column name
    occurs in the string [get_schema_info] returns. *)
Theorem schema_names_all_appear (E : Env) (cat : catalog) (s : state E) (w' : world E)
  (t : str) (cols : list str) :
  catalog_reported E cat (outside s) w' ->
  In (t, cols) cat ->
  exists text,
    get_schema_info s = (Return text, set_outside s w') /\
    contains t text = true /\
    forall c, In c cols -> contains c text = true.
Proof.
  intros H Hin. exists (schema_text cat).
  split; [apply get_schema_info_reported, H|].
  unfold schema_text.
  set (entry := fun t0 : str * list str =>
                  fst t0 ++ lit " (" ++ join (lit ", ") (snd t0) ++ lit ")").
  assert (He : In (entry (t, cols)) (map entry cat)) by (apply in_map, Hin).
  split.
  - apply contains_app_r, contains_join. exists (entry (t, cols)).
    split; [exact He|]. unfold entry. cbn [fst snd].
    apply contains_app_l, contains_self.
  - intros c Hc. apply contains_app_r, contains_join. exists (entry (t, cols)).
    split; [exact He|]. unfold entry. cbn [fst snd].
    apply contains_app_r, contains_app_r, contains_app_l, contains_join.
    exists c. split; [exact Hc | apply contains_self].
Qed.

Lemma schema_names_all_appear_witness :
  exists text,
    get_schema_info (Demo.session (Raise (Exception [])))
    = (Return text, set_outside (Demo.session (Raise (Exception [])))
                      (outside (Demo.session (Raise (Exception []))))) /\
    contains (lit "users") text = true /\
    forall c, In c [lit "id"; lit "name"] -> contains c text = true.
Proof.
  assert (H : catalog_reported Demo.env [(lit "users", [lit "id"; lit "name"])]
                (outside (Demo.session (Raise (Exception []))))
                (outside (Demo.session (Raise (Exception []))))).
  { exists tt, [Demo.row ["users"%string]].
    do 4 eexists.
    split; [reflexivity|]. split; [reflexivity|]. split; [reflexivity|].
    split; [reflexivity|]. split.
    - eapply columns_reported_cons;
        [reflexivity | reflexivity | reflexivity | apply columns_reported_nil].
    - reflexivity. }
  exact (@schema_names_all_appear Demo.env _ _ _ (lit "users") [lit "id"; lit "name"]
           H (or_introl eq_refl)).
Defined.

(** ** More on execution *)

(** X13.  [execute_query] reports the first call that fails, whichever it
    is: opening the cursor, executing, fetching, or closing.  A failure of
    [fetchall] or of [close] is reported although the statement has run,
    and rows already fetched are dropped. *)
Theorem execute_query_reports_first_failure (E : Env) (query : str) (s : state E)
  (e : exn) (w' : world E) :
  (db_cursor E (outside s) = (Raise e, w') \/
   exists cur w1,
     db_cursor E (outside s) = (Return cur, w1) /\
     (cursor_execute E cur query w1 = (Raise e, w') \/
      exists w2,
        cursor_execute E cur query w1 = (Return tt, w2) /\
        (cursor_fetchall E cur w2 = (Raise e, w') \/
         exists rows w3,
           cursor_fetchall E cur w2 = (Return rows, w3) /\
           cursor_close E cur w3 = (Raise e, w')))) ->
  execute_query query s = (Return (PyStr (str_of_exn e), []), set_outside s w').
Proof.
  unfold execute_query, try_except, execute_query_try, bind, call, read, ret.
  intros [Hc | (cur & w1 & Hc & [He | (w2 & He & [Hf | (rows & w3 & Hf & Hx)])])];
    rewrite Hc; cbn [outside set_outside]; try reflexivity;
    rewrite He; cbn [outside set_outside]; try reflexivity;
    rewrite Hf; cbn [outside set_outside]; try reflexivity;
    rewrite Hx; reflexivity.
Qed.

Lemma execute_query_reports_first_failure_witness :
  fst (execute_query (lit "SELECT COUNT(*) FROM users;")
         (Fixtures.session_dropping (Raise (Exception []))))
  = Return (PyStr (lit "MySQL Connection not available."), []).
Proof.
  rewrite (@execute_query_reports_first_failure Fixtures.env_dropping
             (lit "SELECT COUNT(*) FROM users;")
             (Fixtures.session_dropping (Raise (Exception [])))
             (Exception (lit "MySQL Connection not available."))
             {| Demo.up := false; Demo.reply := Raise (Exception []);
                Demo.result_set := Demo.run_statement (lit "SELECT COUNT(*) FROM users;") |}).
  - reflexivity.
  - right. exists tt. eexists. split; [reflexivity|].
    right. eexists. split; [reflexivity|].
    right. eexists. eexists. split; reflexivity.
Defined.

(** ** Replaying the transcript *)

Section ReplayFacts.

Variable E : Env.

Lemma show_messages_run (msgs : list message) (s : state E) :
  show_messages msgs s =
    (Return tt, {| chat_history := chat_history s;
                   screen := screen s ++ map (@replayed E) msgs;
                   outside := outside s |}).
Proof.
  revert s. induction msgs as [|msg rest IH]; intros s.
  - simpl. rewrite app_nil_r. destruct s; reflexivity.
  - cbn [show_messages map]. unfold bind.
    assert (Hd : (if is_AIMessage msg
                  then draw (st_markdown (lit "assistant") (content msg))
                  else draw (st_markdown (lit "user") (content msg))) s
                 = (Return tt, {| chat_history := chat_history s;
                                  screen := screen s ++ [replayed E msg];
                                  outside := outside s |})).
    { unfold replayed. destruct (is_AIMessage msg); reflexivity. }
    rewrite Hd, IH. cbn [chat_history screen outside].
    rewrite <- app_assoc. reflexivity.
Qed.

Lemma replayed_is_markdown (msgs : list message) :
  forallb (@is_markdown E) (map (@replayed E) msgs) = true.
Proof. induction msgs as [|m l IH]; [reflexivity | exact IH]. Qed.

End ReplayFacts.

(** X14.  The replay of the transcript at the start of a run draws one
    piece of plain Markdown per message, in order, and leaves the
    transcript alone.  It never draws a data frame and never uses
    [st.error]: the rows of an earlier answer are not shown again, and an
    earlier error comes back as ordinary text. *)
Theorem replay_is_plain_markdown (E : Env) (s : state E) :
  exists drawn,
    show_history s =
      (Return tt, {| chat_history := chat_history s;
                     screen := screen s ++ drawn;
                     outside := outside s |}) /\
    List.length drawn = List.length (chat_history s) /\
    forallb (@is_markdown E) drawn = true /\
    existsb is_dataframe drawn = false /\
    (forall i msg, nth_error (chat_history s) i = Some msg ->
       nth_error drawn i
       = Some (st_markdown (lit (if is_AIMessage msg then "assistant" else "user"))
                 (content msg))).
Proof.
  exists (map (@replayed E) (chat_history s)).
  split; [apply show_messages_run|]. split; [apply length_map|].
  split; [apply replayed_is_markdown|]. split.
  - induction (chat_history s) as [|m l IH]; [reflexivity | exact IH].
  - intros i msg H. rewrite nth_error_map, H. reflexivity.
Qed.

Lemma replay_is_plain_markdown_witness :
  exists drawn,
    screen (snd (show_history
                   (snd (on_user_query Demo.question
                           (Demo.session (Return (lit "SELECT * FROM orders;")))))))
    = screen (snd (on_user_query Demo.question
                     (Demo.session (Return (lit "SELECT * FROM orders;"))))) ++ drawn /\
    nth_error drawn 2
    = Some (st_markdown (lit "assistant")
              (lit "**Generated SQL**: `SELECT * FROM orders;`" ++ nl ++ nl ++
               lit "**Error**: 1146 (42S02): Table 'shop.orders' doesn't exist")).
Proof.
  destruct (@replay_is_plain_markdown Demo.env
              (snd (on_user_query Demo.question
                      (Demo.session (Return (lit "SELECT * FROM orders;"))))))
    as (drawn & Hrun & _ & _ & _ & Hnth).
  exists drawn. split.
  - rewrite Hrun. reflexivity.
  - exact (Hnth 2 _ eq_refl).
Defined.

(** ** Starting up *)

Section StartupFacts.

Variable E : Env.
Variable S : Site E.

(** The page once the connection attempt has been made. *)
Lemma startup_with_key (key : str) (cfg : config) (w : world E) :
  getenv S (lit "OPENAI_API_KEY") = Some key -> key <> [] ->
  load_db_config S (lit "db_config.json") = Return cfg ->
  ChatOpenAI S key = Return tt ->
  startup S w =
    (fst (fst (connect_database S cfg w)),
     [page_config (lit "Assistflow.ai Chat with MySQL (JSON)") (lit ":speech_balloon:");
      page_title (lit "Assistflow.ai Chat with MySQL (JSON-based Config)")]
     ++ snd (fst (connect_database S cfg w)),
     snd (connect_database S cfg w)).
Proof.
  intros Hk Hne Hl Hm. unfold startup. rewrite Hk.
  destruct key as [|c key]; [congruence|]. cbn [truthy_str negb].
  rewrite Hl, Hm. destruct (connect_database S cfg w) as [[v shown] w']. reflexivity.
Qed.

Lemma connect_database_with_keys (cfg : config) (host user password database : cell)
  (w : world E) :
  cfg (lit "host") = Some host -> cfg (lit "user") = Some user ->
  cfg (lit "password") = Some password -> cfg (lit "database") = Some database ->
  connect_database S cfg w =
    match mysql_connect S host user password database
            (match cfg (lit "port") with Some port => port | None => int_3306 end) w with
    | (Return _, w') => (Ready, [page_success (lit "Connected to the database!")], w')
    | (Raise e, w') =>
        (Stopped, [page_error (lit "Connection failed: " ++ str_of_exn e)], w')
    end.
Proof.
  intros Hh Hu Hp Hd. unfold connect_database, connect_arguments, subscript, dict_get.
  rewrite Hh, Hu, Hp, Hd. reflexivity.
Qed.

(** Without one of the four keys no connection is attempted. *)
Lemma connect_database_ready (cfg : config) (w w' : world E) (shown : list notice) :
  connect_database S cfg w = (Ready, shown, w') ->
  shown = [page_success (lit "Connected to the database!")] /\
  exists host user password database,
    cfg (lit "host") = Some host /\ cfg (lit "user") = Some user /\
    cfg (lit "password") = Some password /\ cfg (lit "database") = Some database /\
    mysql_connect S host user password database
      (match cfg (lit "port") with Some port => port | None => int_3306 end) w
    = (Return tt, w').
Proof.
  unfold connect_database, connect_arguments, subscript, dict_get.
  destruct (cfg (lit "host")) as [host|]; [|discriminate].
  destruct (cfg (lit "user")) as [user|]; [|discriminate].
  destruct (cfg (lit "password")) as [password|]; [|discriminate].
  destruct (cfg (lit "database")) as [database|]; [|discriminate].
  destruct (mysql_connect S host user password database
              (match cfg (lit "port") with Some port => port | None => int_3306 end) w)
    as [[[]|e] w1] eqn:Hc; [|discriminate].
  intros H. injection H as <- <-. split; [reflexivity|].
  exists host, user, password, database. repeat split. exact Hc.
Qed.

End StartupFacts.

(** X15.  The top of the script goes on to the chat exactly when the API
    key is set and not empty, the configuration file parses, the chat model
    is built, the configuration has [host], [user], [password] and
    [database], and [mysql.connector.connect] returns for them and the
    configured port, or port 3306 when none is configured.  The page then
    shows the title and ["Connected to the database!"]. *)
Theorem startup_ready_exactly_when_connected (E : Env) (S : Site E)
  (w w' : world E) (shown : list notice) :
  startup S w = (Ready, shown, w') <->
  shown = [page_config (lit "Assistflow.ai Chat with MySQL (JSON)") (lit ":speech_balloon:");
           page_title (lit "Assistflow.ai Chat with MySQL (JSON-based Config)");
           page_success (lit "Connected to the database!")] /\
  exists key cfg host user password database,
    getenv S (lit "OPENAI_API_KEY") = Some key /\ key <> [] /\
    load_db_config S (lit "db_config.json") = Return cfg /\
    ChatOpenAI S key = Return tt /\
    cfg (lit "host") = Some host /\ cfg (lit "user") = Some user /\
    cfg (lit "password") = Some password /\ cfg (lit "database") = Some database /\
    mysql_connect S host user password database
      (match cfg (lit "port") with Some port => port | None => int_3306 end) w
    = (Return tt, w').
Proof.
  split.
  - unfold startup.
    destruct (getenv S (lit "OPENAI_API_KEY")) as [[|c key]|] eqn:Hk;
      cbn [truthy_str negb]; try discriminate.
    destruct (load_db_config S (lit "db_config.json")) as [cfg|e] eqn:Hl;
      [|discriminate].
    destruct (ChatOpenAI S (c :: key)) as [[]|e] eqn:Hm; [|discriminate].
    destruct (connect_database S cfg w) as [[v shown0] w0] eqn:Hc.
    intros H. injection H as -> <- ->.
    destruct (@connect_database_ready _ _ _ _ _ _ Hc)
      as (-> & host & user & password & database & Hh & Hu & Hp & Hd & Hcon).
    split; [reflexivity|].
    exists (c :: key), cfg, host, user, password, database.
    repeat split; try assumption. discriminate.
  - intros (-> & key & cfg & host & user & password & database &
            Hk & Hne & Hl & Hm & Hh & Hu & Hp & Hd & Hcon).
    rewrite (@startup_with_key _ _ _ _ w Hk Hne Hl Hm).
    rewrite (@connect_database_with_keys _ _ _ _ _ _ _ w Hh Hu Hp Hd), Hcon. reflexivity.
Qed.

Lemma startup_ready_exactly_when_connected_witness :
  fst (fst (startup (Fixtures.site (Some (lit "sk-test"))
                       (Return Fixtures.config_without_port))
              Fixtures.offline))
  = Ready.
Proof.
  assert (Hne : lit "sk-test" <> []) by (vm_compute; discriminate).
  assert (H : startup (Fixtures.site (Some (lit "sk-test"))
                         (Return Fixtures.config_without_port)) Fixtures.offline
              = (Ready,
                 [page_config (lit "Assistflow.ai Chat with MySQL (JSON)")
                    (lit ":speech_balloon:");
                  page_title (lit "Assistflow.ai Chat with MySQL (JSON-based Config)");
                  page_success (lit "Connected to the database!")],
                 {| Demo.up := true; Demo.reply := Raise (Exception []);
                    Demo.result_set := None |})).
  { apply (proj2 (@startup_ready_exactly_when_connected Demo.env _ _ _ _)).
    split; [reflexivity|].
    exists (lit "sk-test"), Fixtures.config_without_port,
      (CStr (lit "localhost")), (CStr (lit "assist")),
      (CStr (lit "secret")), (CStr (lit "shop")).
    repeat split; try reflexivity. exact Hne. }
  rewrite H. reflexivity.
Defined.

(** X16.  When the configuration lacks one of [host], [user], [password]
    and [database], no connection is attempted: the script shows
    ["Connection failed: '<key>'"] for a missing key and stops. *)
Theorem missing_key_stops_before_connecting (E : Env) (S : Site E) (w : world E)
  (key : str) (cfg : config) :
  getenv S (lit "OPENAI_API_KEY") = Some key -> key <> [] ->
  load_db_config S (lit "db_config.json") = Return cfg ->
  ChatOpenAI S key = Return tt ->
  cfg (lit "host") = None \/ cfg (lit "user") = None \/
  cfg (lit "password") = None \/ cfg (lit "database") = None ->
  exists k,
    In k ["host"; "user"; "password"; "database"]%string /\
    cfg (lit k) = None /\
    startup S w =
      (Stopped,
       [page_config (lit "Assistflow.ai Chat with MySQL (JSON)") (lit ":speech_balloon:");
        page_title (lit "Assistflow.ai Chat with MySQL (JSON-based Config)");
        page_error (lit "Connection failed: '" ++ lit k ++ lit "'")],
       w).
Proof.
  intros Hk Hne Hl Hm Hmiss.
  rewrite (@startup_with_key _ _ _ _ w Hk Hne Hl Hm).
  unfold connect_database, connect_arguments, subscript.
  destruct (cfg (lit "host")) as [host|] eqn:Hh;
    [|exists "host"%string; split; [simpl; tauto | split; [exact Hh | reflexivity]]].
  destruct (cfg (lit "user")) as [user|] eqn:Hu;
    [|exists "user"%string; split; [simpl; tauto | split; [exact Hu | reflexivity]]].
  destruct (cfg (lit "password")) as [password|] eqn:Hp;
    [|exists "password"%string; split; [simpl; tauto | split; [exact Hp | reflexivity]]].
  destruct (cfg (lit "database")) as [database|] eqn:Hd;
    [|exists "database"%string; split; [simpl; tauto | split; [exact Hd | reflexivity]]].
  destruct Hmiss as [H | [H | [H | H]]]; discriminate H.
Qed.

Lemma missing_key_stops_before_connecting_witness :
  exists k,
    Fixtures.config_without_password (lit k) = None /\
    startup (Fixtures.site (Some (lit "sk-test"))
               (Return Fixtures.config_without_password)) Fixtures.offline
    = (Stopped,
       [page_config (lit "Assistflow.ai Chat with MySQL (JSON)") (lit ":speech_balloon:");
        page_title (lit "Assistflow.ai Chat with MySQL (JSON-based Config)");
        page_error (lit "Connection failed: '" ++ lit k ++ lit "'")],
       Fixtures.offline).
Proof.
  assert (Hne : lit "sk-test" <> []) by (vm_compute; discriminate).
  destruct (@missing_key_stops_before_connecting Demo.env
              (Fixtures.site (Some (lit "sk-test"))
                 (Return Fixtures.config_without_password))
              Fixtures.offline (lit "sk-test") Fixtures.config_without_password
              eq_refl Hne eq_refl eq_refl (or_intror (or_intror (or_introl eq_refl))))
    as (k & _ & Hnone & Hrun).
  exists k. split; [exact Hnone | exact Hrun].
Defined.

(** X17.  When [mysql.connector.connect] raises, the script shows
    ["Connection failed: <text of the exception>"] under the title and
    stops; the exception does not end the run. *)
Theorem connect_failure_stops (E : Env) (S : Site E) (w w' : world E)
  (key : str) (cfg : config) (host user password database : cell) (e : exn) :
  getenv S (lit "OPENAI_API_KEY") = Some key -> key <> [] ->
  load_db_config S (lit "db_config.json") = Return cfg ->
  ChatOpenAI S key = Return tt ->
  cfg (lit "host") = Some host -> cfg (lit "user") = Some user ->
  cfg (lit "password") = Some password -> cfg (lit "database") = Some database ->
  mysql_connect S host user password database
    (match cfg (lit "port") with Some port => port | None => int_3306 end) w
  = (Raise e, w') ->
  startup S w =
    (Stopped,
     [page_config (lit "Assistflow.ai Chat with MySQL (JSON)") (lit ":speech_balloon:");
      page_title (lit "Assistflow.ai Chat with MySQL (JSON-based Config)");
      page_error (lit "Connection failed: " ++ str_of_exn e)],
     w').
Proof.
  intros Hk Hne Hl Hm Hh Hu Hp Hd Hcon.
  rewrite (@startup_with_key _ _ _ _ w Hk Hne Hl Hm).
  rewrite (@connect_database_with_keys _ _ _ _ _ _ _ w Hh Hu Hp Hd), Hcon. reflexivity.
Qed.

Lemma connect_failure_stops_witness :
  startup (Fixtures.site (Some (lit "sk-test")) (Return Fixtures.config_wrong_port))
    Fixtures.offline
  = (Stopped,
     [page_config (lit "Assistflow.ai Chat with MySQL (JSON)") (lit ":speech_balloon:");
      page_title (lit "Assistflow.ai Chat with MySQL (JSON-based Config)");
      page_error (lit "Connection failed: 2003: Can't connect to MySQL server")],
     Fixtures.offline).
Proof.
  assert (Hne : lit "sk-test" <> []) by (vm_compute; discriminate).
  exact (@connect_failure_stops Demo.env
           (Fixtures.site (Some (lit "sk-test")) (Return Fixtures.config_wrong_port))
           Fixtures.offline Fixtures.offline (lit "sk-test") Fixtures.config_wrong_port
           (CStr (lit "localhost")) (CStr (lit "assist"))
           (CStr (lit "secret")) (CStr (lit "shop"))
           (Exception (lit "2003: Can't connect to MySQL server"))
           eq_refl Hne eq_refl eq_refl eq_refl eq_refl eq_refl eq_refl eq_refl).
Defined.

(** X18.  An exception ends the run at startup only when reading the
    configuration file or building the chat model raises, with the API key
    set; nothing is on the page then and no connection has been attempted.
    Connection errors never end the run. *)
Theorem startup_crashes_only_on_config_or_model (E : Env) (S : Site E)
  (w w' : world E) (shown : list notice) (e : exn) :
  startup S w = (Crashed e, shown, w') <->
  shown = [] /\ w' = w /\
  exists key,
    getenv S (lit "OPENAI_API_KEY") = Some key /\ key <> [] /\
    (load_db_config S (lit "db_config.json") = Raise e \/
     exists cfg, load_db_config S (lit "db_config.json") = Return cfg /\
                 ChatOpenAI S key = Raise e).
Proof.
  split.
  - unfold startup.
    destruct (getenv S (lit "OPENAI_API_KEY")) as [[|c key]|] eqn:Hk;
      cbn [truthy_str negb]; try discriminate.
    destruct (load_db_config S (lit "db_config.json")) as [cfg|e0] eqn:Hl.
    + destruct (ChatOpenAI S (c :: key)) as [[]|e1] eqn:Hm.
      * unfold connect_database.
        destruct (connect_arguments cfg) as [[[[[host user] password] database] port]|e1];
          [|discriminate].
        destruct (mysql_connect S host user password database port w) as [[?|?] ?];
          discriminate.
      * intros H. injection H as -> <- <-. repeat split.
        exists (c :: key). split; [reflexivity|]. split; [discriminate|].
        right. exists cfg. split; [reflexivity | exact Hm].
    + intros H. injection H as -> <- <-. repeat split.
      exists (c :: key). split; [reflexivity|]. split; [discriminate|].
      left. reflexivity.
  - intros (-> & -> & key & Hk & Hne & Hwhy). unfold startup. rewrite Hk.
    destruct key as [|c key]; [congruence|]. cbn [truthy_str negb].
    destruct Hwhy as [Hl | (cfg & Hl & Hm)]; rewrite Hl; [reflexivity|].
    rewrite Hm. reflexivity.
Qed.

Lemma startup_crashes_only_on_config_or_model_witness :
  startup (Fixtures.site (Some (lit "sk-test"))
             (Raise (Exception (lit "Expecting value: line 1 column 1 (char 0)"))))
    Fixtures.offline
  = (Crashed (Exception (lit "Expecting value: line 1 column 1 (char 0)")), [],
     Fixtures.offline).
Proof.
  assert (Hne : lit "sk-test" <> []) by (vm_compute; discriminate).
  apply (proj2 (@startup_crashes_only_on_config_or_model Demo.env _ _ _ _ _)).
  split; [reflexivity|]. split; [reflexivity|].
  exists (lit "sk-test"). split; [reflexivity|]. split; [exact Hne|].
  left. reflexivity.
Defined.

(** X19.  The message about the API key is shown exactly when the key is
    unset or empty; the script then stops at once, before the configuration
    file is read and before any connection is attempted. *)
Theorem api_key_message_exactly_when_missing (E : Env) (S : Site E) (w : world E) :
  truthy_str (getenv S (lit "OPENAI_API_KEY")) = false <->
  startup S w =
    (Stopped, [page_error (lit "OpenAI API key missing! Please check your .env file.")], w).
Proof.
  unfold startup.
  destruct (truthy_str (getenv S (lit "OPENAI_API_KEY"))); cbn [negb];
    split; try reflexivity; try discriminate.
  destruct (load_db_config S (lit "db_config.json")) as [cfg|e]; [|discriminate].
  destruct (ChatOpenAI S _) as [[]|e]; [|discriminate].
  destruct (connect_database S cfg w) as [[v shown] w']. discriminate.
Qed.

Lemma api_key_message_exactly_when_missing_witness :
  startup (Fixtures.site (Some [])
             (Raise (Exception (lit "Expecting value: line 1 column 1 (char 0)"))))
    Fixtures.offline
  = (Stopped, [page_error (lit "OpenAI API key missing! Please check your .env file.")],
     Fixtures.offline).
Proof.
  apply (proj1 (@api_key_message_exactly_when_missing Demo.env _ _)).
  reflexivity.
Defined.

(** X20.  When the model's answer is empty or all whitespace,
    [generate_sql] returns the empty string. *)
Theorem blank_answer_gives_empty_sql (E : Env) (schema_info query : str)
  (s : state E) (response : str) (w : world E) :
  llm E (format_messages schema_info query) (outside s) = (Return response, w) ->
  forallb isspace response = true ->
  generate_sql schema_info query s = (Return [], set_outside s w).
Proof.
  intros H Hb. rewrite (generate_sql_run _ _ _ H).
  assert (Hs : lstrip_by isspace response = []).
  { clear H. induction response as [|c r IH]; [reflexivity|].
    cbn [forallb] in Hb. apply andb_true_iff in Hb. destruct Hb as [Hc Hr].
    cbn [lstrip_by]. rewrite Hc. apply IH, Hr. }
  unfold strip, strip_by. rewrite Hs. reflexivity.
Qed.

Lemma blank_answer_gives_empty_sql_witness :
  generate_sql [] Demo.question (Demo.session (Return (lit " " ++ nl)))
  = (Return [], set_outside (Demo.session (Return (lit " " ++ nl)))
                  (outside (Demo.session (Return (lit " " ++ nl))))).
Proof.
  exact (@blank_answer_gives_empty_sql Demo.env [] Demo.question
           (Demo.session (Return (lit " " ++ nl))) (lit " " ++ nl)
           (outside (Demo.session (Return (lit " " ++ nl)))) eq_refl eq_refl).
Defined.

(** ** A frame Streamlit cannot draw *)

(** X21.  When execution returns at least one row, [pd.DataFrame] accepts
    the rows and [st.dataframe] raises on the frame, the exception leaves
    the handler with the answer half shown: the ["**Results**:"] message is
    already in the transcript and drawn, and no data frame follows it. *)
Theorem dataframe_error_escapes_after_append (E : Env)
  (user_query schema_info sql_query : str) (rows : list tuple) (columns : list cell)
  (df : frame E) (e : exn) (s s1 s2 s3 : state E) :
  user_query <> [] ->
  get_schema_info (asked user_query s) = (Return schema_info, s1) ->
  generate_sql schema_info user_query s1 = (Return sql_query, s2) ->
  execute_query sql_query s2 = (Return (PyList rows, columns), s3) ->
  rows <> [] ->
  pd_DataFrame E rows columns = Return df ->
  streamlit_dataframe E df = Raise e ->
  let text := lit "**Generated SQL**: `" ++ sql_query ++ lit "`" ++ nl ++ nl ++
              lit "**Results**:" in
  fst (on_user_query user_query s) = Raise e /\
  chat_history (snd (on_user_query user_query s))
  = chat_history s ++ [HumanMessage user_query; AIMessage text] /\
  screen (snd (on_user_query user_query s))
  = screen s ++ [st_markdown (lit "user") user_query;
                 st_markdown (lit "assistant") text] /\
  outside (snd (on_user_query user_query s)) = outside s3.
Proof.
  intros Hq H1 H2 H3 Hrows Hdf Hshow text.
  destruct (@quiet_run _ _ _ _ _ _ (@quiet_get_schema_info E) H1) as [Qh1 Qs1].
  destruct (@quiet_run _ _ _ _ _ _ (@quiet_generate_sql E schema_info user_query) H2)
    as [Qh2 Qs2].
  destruct (@quiet_run _ _ _ _ _ _ (@quiet_execute_query E sql_query) H3) as [Qh3 Qs3].
  rewrite (on_user_query_asked _ Hq). unfold answer.
  rewrite (bind_return _ _ _ H1), (bind_return _ _ _ H2), (bind_return _ _ _ H3).
  destruct rows as [|r rows]; [congruence|].
  cbn [show_answer List.length Nat.ltb Nat.leb].
  unfold bind, lift, append_history, draw. rewrite Hdf, Hshow.
  cbn [fst snd chat_history screen outside].
  rewrite Qh3, Qh2, Qh1, Qs3, Qs2, Qs1. cbn [asked chat_history screen].
  rewrite <- !app_assoc. repeat split.
Qed.

Lemma dataframe_error_escapes_after_append_witness :
  fst (on_user_query Demo.question
         (Fixtures.session_duplicate_columns (Return (lit "SELECT id, id FROM users;"))))
  = Raise (Exception (lit "Duplicate column names found: ['id', 'id']")) /\
  chat_history (snd (on_user_query Demo.question
         (Fixtures.session_duplicate_columns (Return (lit "SELECT id, id FROM users;")))))
  = initial_chat_history ++
    [HumanMessage Demo.question;
     AIMessage (lit "**Generated SQL**: `SELECT id, id FROM users;`" ++ nl ++ nl ++
                lit "**Results**:")].
Proof.
  assert (Hq : Demo.question <> []) by (vm_compute; discriminate).
  assert (Hrows : [{| item0 := Demo.int "1"; items := [Demo.int "1"] |};
                   {| item0 := Demo.int "2"; items := [Demo.int "2"] |}] <> [])
    by discriminate.
  destruct (@dataframe_error_escapes_after_append Fixtures.env_duplicate_columns
              Demo.question (lit "Tables: users (id, name)")
              (lit "SELECT id, id FROM users;")
              [{| item0 := Demo.int "1"; items := [Demo.int "1"] |};
               {| item0 := Demo.int "2"; items := [Demo.int "2"] |}]
              [CStr (lit "id"); CStr (lit "id")]
              ([{| item0 := Demo.int "1"; items := [Demo.int "1"] |};
                {| item0 := Demo.int "2"; items := [Demo.int "2"] |}],
               [CStr (lit "id"); CStr (lit "id")])
              (Exception (lit "Duplicate column names found: ['id', 'id']"))
              (Fixtures.session_duplicate_columns (Return (lit "SELECT id, id FROM users;")))
              _ _ _ Hq eq_refl eq_refl eq_refl Hrows eq_refl eq_refl) as (Hr & Hh & _).
  split; [exact Hr | exact Hh].
Defined.
